(** * rlm_dotnet: the .NET Core hosting bridge of the FreeRADIUS server

    A shallow embedding of [src/modules/rlm_dotnet/rlm_dotnet.c] and the
    properties of its life cycle: loading the runtime library, creating the
    execution context, binding one delegate per configured section,
    dispatching and shutting down.

    The C code mutates one [rlm_dotnet_t] through a pointer and talks to code
    it does not own ([dlopen], [dlsym], [dlerror], the three [coreclr_*] entry
    points and the server's logger).  It is modelled as a small monad that
    threads the instance and the state of the outside world, records every
    log line and every foreign call in a trace, and stops when a NULL function
    pointer is called. *)

From Stdlib Require Import ZArith List String Bool Lia Permutation.
Import ListNotations.
Local Open Scope string_scope.
Local Open Scope list_scope.
Local Open Scope Z_scope.

(** ** Data model *)

(** [void *] and function pointers are addresses; [NULL] is address 0. *)
Definition ptr := Z.
Definition NULL : ptr := 0.

(** [char const *]: [None] is the NULL string. *)
Definition cstr := option string.

(** Specifies the module.function to load for processing a section. *)
Record dotnet_func_def_t := mk_func_def {
  function : ptr;
  assembly_name : cstr;
  class_name : cstr;
  function_name : cstr
}.

(** The members of [rlm_dotnet_t] of type [dotnet_func_def_t], i.e. the
    tokens the source hands to its [A(x)] and [MOD_FUNC(x)] macros. *)
Inductive member :=
| m_instantiate | m_authorize | m_authenticate | m_preacct | m_accounting
| m_checksimul | m_pre_proxy | m_post_proxy | m_post_auth
| m_recv_coa | m_send_coa
| m_detach.

Definition member_eqb (a b : member) : bool :=
  match a, b with
  | m_instantiate, m_instantiate | m_authorize, m_authorize
  | m_authenticate, m_authenticate | m_preacct, m_preacct
  | m_accounting, m_accounting | m_checksimul, m_checksimul
  | m_pre_proxy, m_pre_proxy | m_post_proxy, m_post_proxy
  | m_post_auth, m_post_auth | m_recv_coa, m_recv_coa
  | m_send_coa, m_send_coa | m_detach, m_detach => true
  | _, _ => false
  end.

(** [#x]: the stringified member name. *)
Definition member_name (m : member) : string :=
  match m with
  | m_instantiate => "instantiate" | m_authorize => "authorize"
  | m_authenticate => "authenticate" | m_preacct => "preacct"
  | m_accounting => "accounting" | m_checksimul => "checksimul"
  | m_pre_proxy => "pre_proxy" | m_post_proxy => "post_proxy"
  | m_post_auth => "post_auth" | m_recv_coa => "recv_coa"
  | m_send_coa => "send_coa" | m_detach => "detach"
  end.

(** The instance.  [recv_coa] and [send_coa] exist under [WITH_COA] only;
    without it they are never read or written. *)
Record rlm_dotnet_t := mk_inst {
  dylib : ptr;
  hostHandle : ptr;
  domainId : Z;
  coreclr_initialize : ptr;
  coreclr_create_delegate : ptr;
  coreclr_shutdown_2 : ptr;
  clr_library : cstr;
  instantiate : dotnet_func_def_t;
  authorize : dotnet_func_def_t;
  authenticate : dotnet_func_def_t;
  preacct : dotnet_func_def_t;
  accounting : dotnet_func_def_t;
  checksimul : dotnet_func_def_t;
  pre_proxy : dotnet_func_def_t;
  post_proxy : dotnet_func_def_t;
  post_auth : dotnet_func_def_t;
  recv_coa : dotnet_func_def_t;
  send_coa : dotnet_func_def_t;
  detach : dotnet_func_def_t
}.

(** [inst->x] for a member token [x]. *)
Definition slot (m : member) (i : rlm_dotnet_t) : dotnet_func_def_t :=
  match m with
  | m_instantiate => instantiate i | m_authorize => authorize i
  | m_authenticate => authenticate i | m_preacct => preacct i
  | m_accounting => accounting i | m_checksimul => checksimul i
  | m_pre_proxy => pre_proxy i | m_post_proxy => post_proxy i
  | m_post_auth => post_auth i | m_recv_coa => recv_coa i
  | m_send_coa => send_coa i | m_detach => detach i
  end.

(** Assignments to single fields of the instance. *)
Definition set_dylib (v : ptr) (i : rlm_dotnet_t) : rlm_dotnet_t :=
  mk_inst v (hostHandle i) (domainId i) (coreclr_initialize i)
    (coreclr_create_delegate i) (coreclr_shutdown_2 i) (clr_library i)
    (instantiate i) (authorize i) (authenticate i) (preacct i) (accounting i)
    (checksimul i) (pre_proxy i) (post_proxy i) (post_auth i) (recv_coa i)
    (send_coa i) (detach i).

Definition set_context (h : ptr) (d : Z) (i : rlm_dotnet_t) : rlm_dotnet_t :=
  mk_inst (dylib i) h d (coreclr_initialize i)
    (coreclr_create_delegate i) (coreclr_shutdown_2 i) (clr_library i)
    (instantiate i) (authorize i) (authenticate i) (preacct i) (accounting i)
    (checksimul i) (pre_proxy i) (post_proxy i) (post_auth i) (recv_coa i)
    (send_coa i) (detach i).

Definition set_coreclr_initialize (v : ptr) (i : rlm_dotnet_t) : rlm_dotnet_t :=
  mk_inst (dylib i) (hostHandle i) (domainId i) v
    (coreclr_create_delegate i) (coreclr_shutdown_2 i) (clr_library i)
    (instantiate i) (authorize i) (authenticate i) (preacct i) (accounting i)
    (checksimul i) (pre_proxy i) (post_proxy i) (post_auth i) (recv_coa i)
    (send_coa i) (detach i).

Definition set_coreclr_create_delegate (v : ptr) (i : rlm_dotnet_t) : rlm_dotnet_t :=
  mk_inst (dylib i) (hostHandle i) (domainId i) (coreclr_initialize i)
    v (coreclr_shutdown_2 i) (clr_library i)
    (instantiate i) (authorize i) (authenticate i) (preacct i) (accounting i)
    (checksimul i) (pre_proxy i) (post_proxy i) (post_auth i) (recv_coa i)
    (send_coa i) (detach i).

Definition set_coreclr_shutdown_2 (v : ptr) (i : rlm_dotnet_t) : rlm_dotnet_t :=
  mk_inst (dylib i) (hostHandle i) (domainId i) (coreclr_initialize i)
    (coreclr_create_delegate i) v (clr_library i)
    (instantiate i) (authorize i) (authenticate i) (preacct i) (accounting i)
    (checksimul i) (pre_proxy i) (post_proxy i) (post_auth i) (recv_coa i)
    (send_coa i) (detach i).

(** [inst->x = d] for a member token [x]. *)
Definition set_slot (m : member) (d : dotnet_func_def_t) (i : rlm_dotnet_t)
  : rlm_dotnet_t :=
  let pick m' := if member_eqb m m' then d else slot m' i in
  mk_inst (dylib i) (hostHandle i) (domainId i) (coreclr_initialize i)
    (coreclr_create_delegate i) (coreclr_shutdown_2 i) (clr_library i)
    (pick m_instantiate) (pick m_authorize) (pick m_authenticate)
    (pick m_preacct) (pick m_accounting) (pick m_checksimul)
    (pick m_pre_proxy) (pick m_post_proxy) (pick m_post_auth)
    (pick m_recv_coa) (pick m_send_coa) (pick m_detach).

(** [function_definition->function = p], the store made through the
    out-parameter [&function_definition->function]. *)
Definition set_function (p : ptr) (d : dotnet_func_def_t) : dotnet_func_def_t :=
  mk_func_def p (assembly_name d) (class_name d) (function_name d).

(** ** Log lines and foreign calls *)

(** One constructor per format string of the source, with its arguments. *)
Inductive message :=
| msg_dlerror (s : cstr)
    (* "%s", dlerror() *)
| msg_mod_instantiate
    (* "mod_instantiate" *)
| msg_failed_load
    (* "Failed to load .NET core" *)
| msg_binding (name : string) (asm cls fn : cstr)
    (* "binding %s to %s %s %s" *)
| msg_bind_failure (name : string) (asm cls fn : cstr) (rc : Z)
    (* "Failure binding %s to %s %s %s, coreclr_create_delegate returned 0x%08X" *)
| msg_bound (p : ptr)
    (* "Bound it! Function is %p" *)
| msg_init_failed (hr : Z)
    (* "Failed coreclr_initialize hr = 0x%08X" *)
| msg_shutdown (hr latchedExitCode : Z).
    (* "coreclr_shutdown_2 hr = 0x%08X latchedExitCode = 0x%08X" *)

Inductive event :=
| ev_DEBUG (m : message)
| ev_ERROR (m : message)
| ev_INFO (m : message)
| ev_dlopen (path : cstr) (flags : Z)
| ev_dlsym (handle : ptr) (symbol : string)
| ev_dlerror
| ev_coreclr_initialize (fn : ptr) (exePath appDomainFriendlyName : string)
    (propertyCount : Z) (propertyKeys propertyValues : list string)
| ev_coreclr_create_delegate (fn : ptr) (host : ptr) (domain : Z)
    (asm cls fn_name : cstr)
| ev_coreclr_shutdown_2 (fn : ptr) (host : ptr) (domain : Z).

Definition trace := list event.

Definition is_create_delegate (e : event) : bool :=
  match e with ev_coreclr_create_delegate _ _ _ _ _ _ => true | _ => false end.

Definition is_initialize (e : event) : bool :=
  match e with ev_coreclr_initialize _ _ _ _ _ _ => true | _ => false end.

Definition is_shutdown (e : event) : bool :=
  match e with ev_coreclr_shutdown_2 _ _ _ => true | _ => false end.

Definition is_bound (e : event) : bool :=
  match e with ev_DEBUG (msg_bound _) => true | _ => false end.

Definition is_bind_failure (e : event) : bool :=
  match e with ev_ERROR (msg_bind_failure _ _ _ _ _) => true | _ => false end.

(** How often the binder reached the delegate creator. *)
Definition binder_calls (t : trace) : nat :=
  List.length (filter is_create_delegate t).

(** The members the trace reports a binding attempt for, and those it
    reports a binding failure for, by their stringified names. *)
Fixpoint attempted (t : trace) : list string :=
  match t with
  | [] => []
  | ev_DEBUG (msg_binding name _ _ _) :: t' => name :: attempted t'
  | _ :: t' => attempted t'
  end.

Fixpoint failed (t : trace) : list string :=
  match t with
  | [] => []
  | ev_ERROR (msg_bind_failure name _ _ _ _) :: t' => name :: failed t'
  | _ :: t' => failed t'
  end.

(** ** The outside world and the monad of the module *)

Module Dotnet.

Section Bridge.

(** The state of everything the module does not own: the dynamic loader and
    the loaded runtime. *)
Variable W : Type.

(** What [dlfcn.h], [coreclrhost.h], [clrpath.h] and the server's headers
    define; none of them is part of the module. *)
Variables RTLD_NOW RTLD_GLOBAL : Z.
Variable CLR_PATH : string.
Variables RLM_MODULE_FAIL RLM_MODULE_NOOP : Z.
Variable WITH_COA : bool.
Variables CONF_SECTION REQUEST : Type.

(** The foreign functions.  Each one reads and changes the world.  A
    [coreclr_*] function is reached through a function pointer, so it also
    gets the address [fn] it was called at; an out-parameter is passed as the
    value the cell holds before the call, and the value it holds after the
    call is part of the result. *)
Record world := {
  dlopen : cstr -> Z -> W -> ptr * W;
  dlsym : ptr -> string -> W -> ptr * W;
  dlerror : W -> cstr * W;
  do_coreclr_initialize :
    forall (fn : ptr) (exePath appDomainFriendlyName : string)
           (propertyCount : Z) (propertyKeys propertyValues : list string)
           (hostHandle0 : ptr) (domainId0 : Z), W -> (Z * ptr * Z) * W;
  do_coreclr_create_delegate :
    forall (fn : ptr) (host : ptr) (domain : Z) (asm cls fn_name : cstr)
           (delegate0 : ptr), W -> (Z * ptr) * W;
  do_coreclr_shutdown_2 :
    forall (fn : ptr) (host : ptr) (domain : Z) (latchedExitCode0 : Z),
      W -> (Z * Z) * W
}.

Variable w : world.

Record mstate := mk_state { inst : rlm_dotnet_t; env : W }.

(** A run either returns a value and a state, or calls a NULL function
    pointer and never returns. *)
Inductive result (A : Type) :=
| Returns (a : A) (s : mstate)
| NullCall.
Arguments Returns {A} a s.
Arguments NullCall {A}.

(** A computation: from a state, the events it produced and how it ended. *)
Definition M (A : Type) := mstate -> trace * result A.

Definition ret {A} (a : A) : M A := fun s => ([], Returns a s).

Definition bind {A B} (c : M A) (k : A -> M B) : M B :=
  fun s =>
    match c s with
    | (t, Returns a s') => let (t', r) := k a s' in (t ++ t', r)
    | (t, NullCall) => (t, NullCall)
    end.

Notation "x <- c ;; k" := (bind c (fun x => k))
  (at level 61, c at next level, right associativity).
Notation "' p <- c ;; k" := (bind c (fun x => let p := x in k))
  (at level 61, p pattern, c at next level, right associativity).
Notation "c ;; k" := (bind c (fun _ => k))
  (at level 61, right associativity).

(** Read a field of [*inst]; assign to [*inst]. *)
Definition load {A} (f : rlm_dotnet_t -> A) : M A :=
  fun s => ([], Returns (f (inst s)) s).

Definition store (f : rlm_dotnet_t -> rlm_dotnet_t) : M unit :=
  fun s => ([], Returns tt (mk_state (f (inst s)) (env s))).

Definition emit (e : event) : M unit := fun s => ([e], Returns tt s).

(** A call of a foreign function: it is recorded, and it changes the world. *)
Definition extern {A} (e : event) (f : W -> A * W) : M A :=
  fun s => let (a, v) := f (env s) in ([e], Returns a (mk_state (inst s) v)).

(** A call through the function pointer [p]. *)
Definition call_ptr {A} (p : ptr) (e : event) (f : W -> A * W) : M A :=
  if p =? NULL then (fun _ => ([], NullCall)) else extern e f.

Definition DEBUG (m : message) : M unit := emit (ev_DEBUG m).
Definition ERROR (m : message) : M unit := emit (ev_ERROR m).
Definition INFO (m : message) : M unit := emit (ev_INFO m).

(** ** The module *)

Definition DEFAULT_CLR_LIBRARY : string := "libcoreclr.dylib".

(** [inst->x = dlsym(inst->dylib, #x); if (!inst->x) ERROR("%s", dlerror());] *)
Definition resolve (symbol : string) (set : ptr -> rlm_dotnet_t -> rlm_dotnet_t)
  : M unit :=
  h <- load dylib ;;
  p <- extern (ev_dlsym h symbol) (dlsym w h symbol) ;;
  store (set p) ;;
  if p =? NULL
  then (e <- extern ev_dlerror (dlerror w) ;; ERROR (msg_dlerror e))
  else ret tt.

Definition bind_dotnet : M Z :=
  path <- load clr_library ;;
  let flags := Z.lor RTLD_NOW RTLD_GLOBAL in
  h <- extern (ev_dlopen path flags) (dlopen w path flags) ;;
  store (set_dylib h) ;;
  if h =? NULL
  then (e <- extern ev_dlerror (dlerror w) ;;
        ERROR (msg_dlerror e) ;;
        ret 1)
  else (resolve "coreclr_initialize" set_coreclr_initialize ;;
        resolve "coreclr_create_delegate" set_coreclr_create_delegate ;;
        resolve "coreclr_shutdown_2" set_coreclr_shutdown_2 ;;
        ret 0).

(** [function_definition] points at the member [m] of [*inst];
    [function_name] is the stringified member name. *)
Definition bind_one_method (m : member) (name : string) : M Z :=
  d <- load (slot m) ;;
  match function_name d with
  | Some _ =>
      DEBUG (msg_binding name (assembly_name d) (class_name d) (function_name d)) ;;
      create <- load coreclr_create_delegate ;;
      host <- load hostHandle ;;
      domain <- load domainId ;;
      ' (rc, p) <- call_ptr create
          (ev_coreclr_create_delegate create host domain
             (assembly_name d) (class_name d) (function_name d))
          (do_coreclr_create_delegate w create host domain
             (assembly_name d) (class_name d) (function_name d) (function d)) ;;
      store (set_slot m (set_function p d)) ;;
      (if rc =? 0
       then (d' <- load (slot m) ;; DEBUG (msg_bound (function d')))
       else ERROR (msg_bind_failure name (assembly_name d) (class_name d)
                     (function_name d) rc)) ;;
      ret rc
  | None => ret 0
  end.

(** The members bound by [mod_instantiate], in the order of its [A(x)]
    lines. *)
Definition bound_members : list member :=
  [m_instantiate; m_authorize; m_authenticate; m_preacct; m_accounting;
   m_checksimul; m_pre_proxy; m_post_proxy; m_post_auth]
  ++ (if WITH_COA then [m_recv_coa; m_send_coa] else [])
  ++ [m_detach].

(** [A(x) A(y) ...] with [#define A(x) bind_one_method(inst, &inst->x, #x);]:
    the result of each call is dropped. *)
Fixpoint bind_methods (l : list member) : M unit :=
  match l with
  | [] => ret tt
  | m :: l' => bind_one_method m (member_name m) ;; bind_methods l'
  end.

Definition exePath : string :=
  "/Users/blakeramsdell/Source/OpenSource/freeradius-server".

Definition mod_instantiate (conf : CONF_SECTION) : M Z :=
  DEBUG msg_mod_instantiate ;;
  failed_load <- bind_dotnet ;;
  if negb (failed_load =? 0)
  then (ERROR msg_failed_load ;; ret RLM_MODULE_FAIL)
  else
    let propertyKeys := ["TRUSTED_PLATFORM_ASSEMBLIES"] in
    let propertyValues := [CLR_PATH] in
    let propertyCount := Z.of_nat (List.length propertyKeys) in
    init <- load coreclr_initialize ;;
    host0 <- load hostHandle ;;
    domain0 <- load domainId ;;
    ' (hr, host, domain) <- call_ptr init
        (ev_coreclr_initialize init exePath "FreeRadius" propertyCount
           propertyKeys propertyValues)
        (do_coreclr_initialize w init exePath "FreeRadius" propertyCount
           propertyKeys propertyValues host0 domain0) ;;
    store (set_context host domain) ;;
    (if hr =? 0
     then bind_methods bound_members
     else ERROR (msg_init_failed hr)) ;;
    ret 0.

Definition mod_detach : M Z :=
  let latchedExitCode0 := 0 in
  shutdown <- load coreclr_shutdown_2 ;;
  host <- load hostHandle ;;
  domain <- load domainId ;;
  ' (hr, latchedExitCode) <- call_ptr shutdown
      (ev_coreclr_shutdown_2 shutdown host domain)
      (do_coreclr_shutdown_2 w shutdown host domain latchedExitCode0) ;;
  INFO (msg_shutdown hr latchedExitCode) ;;
  ret 0.

Definition do_dotnet (i : rlm_dotnet_t) (request : REQUEST) (pFunc : ptr)
  (funcname : string) : Z :=
  RLM_MODULE_NOOP.

(** [MOD_FUNC(x)]: the section handler [mod_x]. *)
Definition MOD_FUNC (x : member) (request : REQUEST) : M Z :=
  i <- load (fun i => i) ;;
  ret (do_dotnet i request (function (slot x i)) (member_name x)).

(** The members [x] for which the source expands [MOD_FUNC(x)] and enters
    [mod_x] in the method table of [rlm_dotnet]. *)
Definition methods : list member :=
  [m_authenticate; m_authorize; m_preacct; m_accounting; m_checksimul;
   m_pre_proxy; m_post_proxy; m_post_auth]
  ++ (if WITH_COA then [m_recv_coa; m_send_coa] else []).

End Bridge.

Arguments Returns {W A} a s.
Arguments NullCall {W A}.
Arguments mk_state {W} inst env.
Arguments inst {W} m.
Arguments env {W} m.
Arguments ret {W A} a _.
Arguments bind {W A B} c k _.
Arguments load {W A} f _.
Arguments store {W} f _.
Arguments emit {W} e _.
Arguments extern {W A} e f _.
Arguments call_ptr {W A} p e f _.
Arguments DEBUG {W} m _.
Arguments ERROR {W} m _.
Arguments INFO {W} m _.
Arguments resolve {W} w symbol set _.
Arguments bind_one_method {W} w m name _.
Arguments bind_methods {W} w l _.
Arguments mod_detach {W} w _.
Arguments dlopen {W} w _ _ _.
Arguments dlsym {W} w _ _ _.
Arguments dlerror {W} w _.
Arguments do_coreclr_initialize {W} w fn _ _ _ _ _ _ _ _.
Arguments do_coreclr_create_delegate {W} w fn _ _ _ _ _ _ _.
Arguments do_coreclr_shutdown_2 {W} w fn _ _ _ _.

End Dotnet.

Import Dotnet.

(** ** The configuration table and the method table *)

(** The field of a section an option is parsed into. *)
Inductive func_def_field := f_assembly_name | f_class_name | f_function_name.

(** [FR_CONF_OFFSET(PW_TYPE_STRING, rlm_dotnet_t, ...)]: the type of an
    option and the place in the instance its value goes to. *)
Inductive PW_TYPE := PW_TYPE_STRING.

Inductive conf_offset :=
| offset_member (x : member) (f : func_def_field)
| offset_clr_library.

Record CONF_PARSER := mk_conf {
  conf_name : string;
  conf_type : PW_TYPE;
  conf_data : conf_offset;
  conf_dflt : cstr
}.

(** The three entries [A(x)] expands to in [module_config]. *)
Definition A_config (x : member) : list CONF_PARSER :=
  [mk_conf ("asm_" ++ member_name x)%string PW_TYPE_STRING
     (offset_member x f_assembly_name) (Some "${.assembly}");
   mk_conf ("class_" ++ member_name x)%string PW_TYPE_STRING
     (offset_member x f_class_name) (Some "${.class}");
   mk_conf ("func_" ++ member_name x)%string PW_TYPE_STRING
     (offset_member x f_function_name) None].

(** [module_config], up to its terminator. *)
Definition module_config (WITH_COA : bool) : list CONF_PARSER :=
  A_config m_instantiate ++ A_config m_authorize ++ A_config m_authenticate
  ++ A_config m_preacct ++ A_config m_accounting ++ A_config m_checksimul
  ++ A_config m_pre_proxy ++ A_config m_post_proxy ++ A_config m_post_auth
  ++ (if WITH_COA then A_config m_recv_coa ++ A_config m_send_coa else [])
  ++ A_config m_detach
  ++ [mk_conf "clr_library" PW_TYPE_STRING offset_clr_library
        (Some DEFAULT_CLR_LIBRARY)].



(** The sections the table has a [func_<x>] option for, in its order. *)
Fixpoint func_options (table : list CONF_PARSER) : list member :=
  match table with
  | [] => []
  | c :: table' =>
      match conf_data c with
      | offset_member x f_function_name => x :: func_options table'
      | _ => func_options table'
      end
  end.

(** The options of the table that go to the section [x]. *)
Definition options_of (x : member) (table : list CONF_PARSER) : list CONF_PARSER :=
  filter (fun c => match conf_data c with
                   | offset_member y _ => member_eqb x y
                   | offset_clr_library => false
                   end) table.

(** ** Notions used to state the properties *)

(** A section is configured when its [func_<x>] option is set. *)
Definition configured (i : rlm_dotnet_t) (m : member) : bool :=
  match function_name (slot m i) with Some _ => true | None => false end.

(** The arguments [bind_one_method] hands to the delegate creator for the
    member [m] of [i], applied to a function [k] of these arguments. *)
Definition with_delegate_args {A} (i : rlm_dotnet_t) (m : member)
  (k : ptr -> ptr -> Z -> cstr -> cstr -> cstr -> ptr -> A) : A :=
  k (coreclr_create_delegate i) (hostHandle i) (domainId i)
    (assembly_name (slot m i)) (class_name (slot m i))
    (function_name (slot m i)) (function (slot m i)).

(** [stub] fails for the configured member [m] of [i]. *)
Definition creator_fails
  (stub : ptr -> ptr -> Z -> cstr -> cstr -> cstr -> ptr -> Z * ptr)
  (i : rlm_dotnet_t) (m : member) : bool :=
  configured i m && negb (fst (with_delegate_args i m stub) =? 0).

(** [j] is [i] up to the [function] pointers of its sections. *)
Definition same_but_functions (i j : rlm_dotnet_t) : Prop :=
  dylib j = dylib i /\ hostHandle j = hostHandle i /\ domainId j = domainId i /\
  coreclr_initialize j = coreclr_initialize i /\
  coreclr_create_delegate j = coreclr_create_delegate i /\
  coreclr_shutdown_2 j = coreclr_shutdown_2 i /\
  clr_library j = clr_library i /\
  forall m, assembly_name (slot m j) = assembly_name (slot m i) /\
            class_name (slot m j) = class_name (slot m i) /\
            function_name (slot m j) = function_name (slot m i).

(** What a run handed back to the server, if it returned at all. *)
Definition return_code {W A} (r : trace * result W A) : option A :=
  match snd r with
  | Returns a _ => Some a
  | NullCall => None
  end.

(** The trace reports the section [name] as bound: a binding attempt and no
    binding failure. *)
Definition bound_names (t : trace) : list string :=
  filter (fun name => negb (existsb (String.eqb name) (failed t))) (attempted t).

(** More readings of a trace. *)
Definition is_dlopen (e : event) : bool :=
  match e with ev_dlopen _ _ => true | _ => false end.

Definition is_dlsym (e : event) : bool :=
  match e with ev_dlsym _ _ => true | _ => false end.

Definition is_error (e : event) : bool :=
  match e with ev_ERROR _ => true | _ => false end.

(** How many of the three entry points of the instance are NULL. *)
Definition unresolved (i : rlm_dotnet_t) : nat :=
  List.length
    (filter (fun p => p =? NULL)
       [coreclr_initialize i; coreclr_create_delegate i; coreclr_shutdown_2 i]).

(** ** Concrete worlds and instances *)

(** A section without and with a [func_<x>] option. *)
Definition unset : dotnet_func_def_t := mk_func_def NULL None None None.

Definition func (fn : string) : dotnet_func_def_t :=
  mk_func_def NULL (Some "Radius") (Some "Radius.Handler") (Some fn).

(** Zero-filled instance memory: no instantiate has run on it. *)
Definition zero_instance : rlm_dotnet_t :=
  mk_inst NULL NULL 0 NULL NULL NULL None
    unset unset unset unset unset unset unset unset unset unset unset unset.

(** Zero-filled memory into which a configuration has been parsed:
    [func_authorize], [func_authenticate], [func_accounting] and
    [func_post_auth] are set, [clr_library] has its default. *)
Definition sample_instance : rlm_dotnet_t :=
  mk_inst NULL NULL 0 NULL NULL NULL (Some DEFAULT_CLR_LIBRARY)
    unset (func "Authorize") (func "Authenticate") unset (func "Accounting")
    unset unset unset (func "PostAuth") unset unset unset.

(** What a test double of the loader and of the runtime does. *)
Record scenario := {
  library_loads : bool;
  symbol_missing : string -> bool;
  initialize_hr : Z;
  delegate_rc : cstr -> Z;
  shutdown_hr : Z
}.

Definition symbol_address (symbol : string) : ptr :=
  if String.eqb symbol "coreclr_initialize" then 4096
  else if String.eqb symbol "coreclr_create_delegate" then 4112
  else if String.eqb symbol "coreclr_shutdown_2" then 4128
  else NULL.

Definition delegate_address (fn_name : cstr) : ptr :=
  match fn_name with
  | Some f => 8192 + Z.of_nat (String.length f)
  | None => NULL
  end.

(** The delegate creator of the test double, as a function of the arguments
    of the call: the status is chosen by the function identifier, and the
    out-parameter gets a handle on success and NULL on failure. *)
Definition double_creator (sc : scenario) (fn host : ptr) (domain : Z)
  (asm cls fn_name : cstr) (delegate0 : ptr) : Z * ptr :=
  if delegate_rc sc fn_name =? 0 then (0, delegate_address fn_name)
  else (delegate_rc sc fn_name, NULL).

(** The world of the test double counts the foreign calls made so far. *)
Definition double (sc : scenario) : world nat := {|
  dlopen := fun _ _ n => (if library_loads sc then 1024 else NULL, S n);
  dlsym := fun _ symbol n =>
    (if symbol_missing sc symbol then NULL else symbol_address symbol, S n);
  dlerror := fun n => (Some "dlerror", S n);
  do_coreclr_initialize := fun _ _ _ _ _ _ host0 domain0 n =>
    (if initialize_hr sc =? 0 then (0, 2048, 1)
     else (initialize_hr sc, host0, domain0), S n);
  do_coreclr_create_delegate := fun fn host domain asm cls fn_name delegate0 n =>
    (double_creator sc fn host domain asm cls fn_name delegate0, S n);
  do_coreclr_shutdown_2 := fun _ _ _ _ n => ((shutdown_hr sc, 0), S n)
|}.

Definition nothing_missing (symbol : string) : bool := false.

Definition all_bind (fn_name : cstr) : Z := 0.

(** [E_FAIL], and a creator that cannot find the method "Accounting". *)
Definition E_FAIL : Z := 0x80004005.

Definition accounting_fails (fn_name : cstr) : Z :=
  match fn_name with
  | Some f => if String.eqb f "Accounting" then 0x80131513 else 0
  | None => 0
  end.

Definition healthy : scenario :=
  Build_scenario true nothing_missing 0 all_bind 0.

Definition no_library : scenario :=
  Build_scenario false nothing_missing 0 all_bind 0.

Definition initialize_fails : scenario :=
  Build_scenario true nothing_missing E_FAIL all_bind 0.

Definition one_bind_fails : scenario :=
  Build_scenario true nothing_missing 0 accounting_fails 0.

Definition shutdown_fails : scenario :=
  Build_scenario true nothing_missing 0 all_bind E_FAIL.

Definition initialize_missing : scenario :=
  Build_scenario true (String.eqb "coreclr_initialize") 0 all_bind 0.

(** The instance [sample_instance] after [bind_dotnet] against a double
    that has every symbol, and after a successful initialization. *)
Definition loaded_instance : rlm_dotnet_t :=
  set_coreclr_shutdown_2 4128
    (set_coreclr_create_delegate 4112
       (set_coreclr_initialize 4096 (set_dylib 1024 sample_instance))).

Definition ready_instance : rlm_dotnet_t := set_context 2048 1 loaded_instance.

(** The constants of a macOS build of version 3 of the server without CoA:
    [RTLD_NOW] is 2, [RTLD_GLOBAL] is 8, [RLM_MODULE_FAIL] is 1 and
    [RLM_MODULE_NOOP] is 7; [CONF_SECTION] and [REQUEST] are not looked at. *)
Definition sample_CLR_PATH : string :=
  "/usr/local/share/dotnet/shared/Microsoft.NETCore.App/System.Private.CoreLib.dll".

Definition run_instantiate (sc : scenario) (s : mstate nat)
  : trace * result nat Z :=
  mod_instantiate nat 2 8 sample_CLR_PATH 1 false unit (double sc) tt s.

Definition run_detach (sc : scenario) (s : mstate nat) : trace * result nat Z :=
  mod_detach (double sc) s.

Definition run_dispatch (x : member) (s : mstate nat) : trace * result nat Z :=
  MOD_FUNC nat 7 unit x tt s.

(** The fresh state of the server: the parsed configuration and a world in
    which no foreign call has been made. *)
Definition fresh : mstate nat := mk_state sample_instance O.

(** Libraries without the delegate creator and without the shutdown entry
    point, and one without the delegate creator whose initializer fails. *)
Definition creator_missing : scenario :=
  Build_scenario true (String.eqb "coreclr_create_delegate") 0 all_bind 0.

Definition shutdown_missing : scenario :=
  Build_scenario true (String.eqb "coreclr_shutdown_2") 0 all_bind 0.

Definition initialize_fails_creator_missing : scenario :=
  Build_scenario true (String.eqb "coreclr_create_delegate") E_FAIL all_bind 0.

(** The state a run of the double ended in ([fresh] if it did not return). *)
Definition final_state {A} (r : trace * result nat A) : mstate nat :=
  match snd r with
  | Returns _ s => s
  | NullCall => fresh
  end.

(** ** Properties *)

(** *** The instance as a table of members *)

Lemma member_eqb_eq (a b : member) : member_eqb a b = true <-> a = b.
Proof. destruct a, b; simpl; split; congruence. Qed.

Lemma member_eqb_refl (a : member) : member_eqb a a = true.
Proof. now apply member_eqb_eq. Qed.

Lemma member_eqb_neq (a b : member) : a <> b -> member_eqb a b = false.
Proof.
  intros H. destruct (member_eqb a b) eqn:E; [|reflexivity].
  apply member_eqb_eq in E. contradiction.
Qed.

Lemma slot_set_slot_same (m : member) (d : dotnet_func_def_t) (i : rlm_dotnet_t) :
  slot m (set_slot m d i) = d.
Proof. destruct m; reflexivity. Qed.

Lemma slot_set_slot_other (m m' : member) (d : dotnet_func_def_t)
  (i : rlm_dotnet_t) :
  m <> m' -> slot m' (set_slot m d i) = slot m' i.
Proof. intros H. destruct m, m'; try reflexivity; contradiction. Qed.

Lemma member_name_inj (a b : member) : member_name a = member_name b -> a = b.
Proof. destruct a, b; simpl; intros H; try reflexivity; discriminate. Qed.

(** Two instances are equal when all their fields are. *)
Lemma inst_ext (i j : rlm_dotnet_t) :
  dylib i = dylib j -> hostHandle i = hostHandle j -> domainId i = domainId j ->
  coreclr_initialize i = coreclr_initialize j ->
  coreclr_create_delegate i = coreclr_create_delegate j ->
  coreclr_shutdown_2 i = coreclr_shutdown_2 j ->
  clr_library i = clr_library j ->
  (forall m, slot m i = slot m j) ->
  i = j.
Proof.
  destruct i, j; simpl; intros; subst.
  pose proof (H6 m_instantiate). pose proof (H6 m_authorize).
  pose proof (H6 m_authenticate). pose proof (H6 m_preacct).
  pose proof (H6 m_accounting). pose proof (H6 m_checksimul).
  pose proof (H6 m_pre_proxy). pose proof (H6 m_post_proxy).
  pose proof (H6 m_post_auth). pose proof (H6 m_recv_coa).
  pose proof (H6 m_send_coa). pose proof (H6 m_detach).
  simpl in *. congruence.
Qed.

(** *** Traces *)

Lemma attempted_app (t u : trace) : attempted (t ++ u) = attempted t ++ attempted u.
Proof.
  induction t as [|e t IH]; simpl; [reflexivity|].
  destruct e; try exact IH. destruct m; simpl; try exact IH. now rewrite IH.
Qed.

Lemma failed_app (t u : trace) : failed (t ++ u) = failed t ++ failed u.
Proof.
  induction t as [|e t IH]; simpl; [reflexivity|].
  destruct e; try exact IH. destruct m; simpl; try exact IH. now rewrite IH.
Qed.

Lemma binder_calls_app (t u : trace) :
  binder_calls (t ++ u) = (binder_calls t + binder_calls u)%nat.
Proof. unfold binder_calls. now rewrite filter_app, length_app. Qed.

(** *** Lists *)

Lemma filter_filter {A} (f g : A -> bool) (l : list A) :
  filter f (filter g l) = filter (fun x => g x && f x) l.
Proof.
  induction l as [|a l IH]; [reflexivity|]. cbn [filter].
  destruct (g a); cbn [andb filter]; [destruct (f a)|]; now rewrite IH.
Qed.

Lemma Permutation_filter {A} (f : A -> bool) (l l' : list A) :
  Permutation l l' -> Permutation (filter f l) (filter f l').
Proof.
  induction 1 as [|a l l' _ IH|a b l|l l' l'' _ IH1 _ IH2]; cbn [filter].
  - constructor.
  - destruct (f a); [now constructor|exact IH].
  - destruct (f a), (f b); try apply Permutation_refl. apply perm_swap.
  - eapply Permutation_trans; eassumption.
Qed.

Lemma existsb_Permutation {A} (f : A -> bool) (l l' : list A) :
  Permutation l l' -> existsb f l = existsb f l'.
Proof.
  intros P. destruct (existsb f l') eqn:E.
  - apply existsb_exists in E as (x & Hx & Hf). apply existsb_exists.
    exists x. split; [|exact Hf]. eapply Permutation_in; [|exact Hx].
    now apply Permutation_sym.
  - destruct (existsb f l) eqn:E'; [|reflexivity].
    apply existsb_exists in E' as (x & Hx & Hf).
    rewrite <- E. symmetry. apply existsb_exists.
    exists x. split; [|exact Hf]. eapply Permutation_in; eassumption.
Qed.

Lemma existsb_member_notin (m : member) (l : list member) :
  ~ In m l -> existsb (member_eqb m) l = false.
Proof.
  intros H. destruct (existsb (member_eqb m) l) eqn:E; [|reflexivity].
  apply existsb_exists in E as (x & Hx & Hm). apply member_eqb_eq in Hm.
  subst. contradiction.
Qed.

(** Of the elements that satisfy [c], those that satisfy [f] and those that
    do not. *)
Lemma length_filter_split {A} (c f : A -> bool) (l : list A) :
  (forall x, f x = true -> c x = true) ->
  List.length (filter c l)
  = (List.length (filter (fun x => c x && negb (f x)) l)
     + List.length (filter f l))%nat.
Proof.
  intros H. induction l as [|a l IH]; [reflexivity|]. cbn [filter].
  specialize (H a).
  destruct (c a), (f a); cbn [andb negb List.length]; lia.
Qed.

(** Looking a member's name up among the names of the members that satisfy
    [f]. *)
Lemma existsb_member_name (f : member -> bool) (m : member) (l : list member) :
  In m l ->
  existsb (String.eqb (member_name m)) (map member_name (filter f l)) = f m.
Proof.
  intros Hm. destruct (f m) eqn:Ef.
  - apply existsb_exists. exists (member_name m). split.
    + apply in_map. apply filter_In. now split.
    + apply String.eqb_refl.
  - destruct (existsb _ _) eqn:E; [|reflexivity].
    apply existsb_exists in E as (x & Hx & Hxe).
    apply in_map_iff in Hx as (m' & <- & Hm').
    apply String.eqb_eq in Hxe. apply member_name_inj in Hxe. subst m'.
    apply filter_In in Hm' as [_ Hm']. congruence.
Qed.

Section Properties.

Variable W : Type.
Variables RTLD_NOW RTLD_GLOBAL : Z.
Variable CLR_PATH : string.
Variables RLM_MODULE_FAIL RLM_MODULE_NOOP : Z.
Variable WITH_COA : bool.
Variables CONF_SECTION REQUEST : Type.
Variable w : world W.

Local Abbreviation bind_dotnet := (bind_dotnet W RTLD_NOW RTLD_GLOBAL w).
Local Abbreviation bound_members := (bound_members WITH_COA).
Local Abbreviation methods := (methods WITH_COA).
Local Abbreviation mod_instantiate :=
  (mod_instantiate W RTLD_NOW RTLD_GLOBAL CLR_PATH RLM_MODULE_FAIL WITH_COA
     CONF_SECTION w).
Local Abbreviation MOD_FUNC := (MOD_FUNC W RLM_MODULE_NOOP REQUEST).

(** *** Sequencing *)

Lemma bind_returns {A B} (c : M W A) (k : A -> M W B) s t a s' :
  c s = (t, Returns a s') ->
  bind c k s = (t ++ fst (k a s'), snd (k a s')).
Proof. unfold bind. intros ->. now destruct (k a s'). Qed.

Lemma bind_nullcall {A B} (c : M W A) (k : A -> M W B) s t :
  c s = (t, NullCall) -> bind c k s = (t, NullCall).
Proof. unfold bind. now intros ->. Qed.

(** A call through a NULL pointer does not return; a call through any other
    pointer runs the foreign function. *)
Lemma call_ptr_null {A} (e : event) (f : W -> A * W) s :
  call_ptr NULL e f s = ([], NullCall).
Proof. reflexivity. Qed.

Lemma call_ptr_returns {A} (p : ptr) (e : event) (f : W -> A * W) s :
  p <> NULL ->
  call_ptr p e f s = ([e], Returns (fst (f (env s))) (mk_state (inst s) (snd (f (env s))))).
Proof.
  intros Hp. unfold call_ptr, extern.
  destruct (p =? NULL) eqn:E; [apply Z.eqb_eq in E; contradiction|].
  now destruct (f (env s)).
Qed.

(** *** Loading the runtime library *)

(** Resolving a symbol stores what [dlsym] returned, NULL included, and
    always returns. *)
Lemma resolve_returns symbol set (s : mstate W) :
  exists t v,
    resolve w symbol set s
    = (t, Returns tt
            (mk_state (set (fst (dlsym w (dylib (inst s)) symbol (env s))) (inst s)) v))
    /\ filter is_create_delegate t = []
    /\ filter is_initialize t = [].
Proof.
  unfold resolve, bind, load, store, extern, ERROR, emit, ret; simpl.
  destruct (dlsym w (dylib (inst s)) symbol (env s)) as [p v1]; simpl.
  destruct (p =? NULL); simpl.
  - destruct (dlerror w v1) as [e v2]; simpl. eauto.
  - eauto.
Qed.

(** [bind_dotnet] always returns: 1 after a failed [dlopen] and 0 otherwise,
    whatever [dlsym] finds.  It calls neither the initializer nor the
    delegate creator, and it leaves the sections of the instance alone. *)
Lemma bind_dotnet_returns (s : mstate W) :
  exists t s',
    bind_dotnet s
    = (t, Returns (if fst (dlopen w (clr_library (inst s))
                             (Z.lor RTLD_NOW RTLD_GLOBAL) (env s)) =? NULL
                   then 1 else 0) s')
    /\ filter is_create_delegate t = []
    /\ filter is_initialize t = []
    /\ (forall m, slot m (inst s') = slot m (inst s)).
Proof.
  unfold Dotnet.bind_dotnet.
  unfold bind at 1, load at 1. cbv beta iota.
  unfold bind at 1, extern at 1. cbv beta iota.
  destruct (dlopen w (clr_library (inst s)) (Z.lor RTLD_NOW RTLD_GLOBAL) (env s))
    as [h v1]; simpl fst.
  unfold bind at 1, store at 1. cbv beta iota. simpl inst; simpl env.
  destruct (h =? NULL) eqn:Eh.
  - unfold bind, extern, ERROR, emit, ret; simpl.
    destruct (dlerror w v1) as [e v2]; simpl. eauto 10.
  - set (s1 := mk_state (set_dylib h (inst s)) v1).
    destruct (resolve_returns "coreclr_initialize" set_coreclr_initialize s1)
      as (t1 & v2 & R1 & C1 & I1).
    rewrite (bind_returns _ _ _ _ _ _ R1). cbv beta.
    match type of R1 with _ = (_, Returns _ ?x) => set (s2 := x) in * end.
    destruct (resolve_returns "coreclr_create_delegate"
                set_coreclr_create_delegate s2) as (t2 & v3 & R2 & C2 & I2).
    rewrite (bind_returns _ _ _ _ _ _ R2). cbv beta.
    match type of R2 with _ = (_, Returns _ ?x) => set (s3 := x) in * end.
    destruct (resolve_returns "coreclr_shutdown_2" set_coreclr_shutdown_2 s3)
      as (t3 & v4 & R3 & C3 & I3).
    rewrite (bind_returns _ _ _ _ _ _ R3). cbv beta.
    unfold ret; simpl.
    do 2 eexists. split; [reflexivity|].
    cbn [filter is_create_delegate is_initialize].
    rewrite !filter_app, C1, C2, C3, I1, I2, I3. simpl.
    repeat split.
Qed.

(** *** Binding one section *)

(** A section without a function identifier is skipped: no log line, no
    foreign call, no change of the instance. *)
Lemma bind_one_method_unset (m : member) (name : string) (s : mstate W) :
  configured (inst s) m = false ->
  bind_one_method w m name s = ([], Returns 0 s).
Proof.
  unfold configured, bind_one_method, bind, load. cbv beta iota.
  destruct (function_name (slot m (inst s))); [discriminate|reflexivity].
Qed.

(** A configured section: one call of the delegate creator, whose status is
    returned and logged, and whose out-parameter lands in the section. *)
Lemma bind_one_method_set (m : member) (name : string) (s : mstate W) :
  configured (inst s) m = true ->
  coreclr_create_delegate (inst s) <> NULL ->
  let d := slot m (inst s) in
  let r := with_delegate_args (inst s) m (do_coreclr_create_delegate w) (env s) in
  let rc := fst (fst r) in
  let p := snd (fst r) in
  bind_one_method w m name s
  = ([ev_DEBUG (msg_binding name (assembly_name d) (class_name d) (function_name d));
      ev_coreclr_create_delegate (coreclr_create_delegate (inst s))
        (hostHandle (inst s)) (domainId (inst s))
        (assembly_name d) (class_name d) (function_name d);
      if rc =? 0 then ev_DEBUG (msg_bound p)
      else ev_ERROR (msg_bind_failure name (assembly_name d) (class_name d)
                       (function_name d) rc)],
     Returns rc (mk_state (set_slot m (set_function p d) (inst s)) (snd r))).
Proof.
  unfold configured, with_delegate_args. intros Hc Hp. cbv zeta.
  unfold bind_one_method.
  unfold bind at 1, load at 1. cbv beta iota.
  destruct (function_name (slot m (inst s))) as [f|] eqn:Ef; [|discriminate].
  unfold bind at 1, DEBUG at 1, emit at 1. cbv beta iota.
  unfold bind at 1, load at 1. cbv beta iota.
  unfold bind at 1, load at 1. cbv beta iota.
  unfold bind at 1, load at 1. cbv beta iota.
  unfold bind at 1. rewrite call_ptr_returns by exact Hp.
  destruct (do_coreclr_create_delegate w (coreclr_create_delegate (inst s))
              (hostHandle (inst s)) (domainId (inst s))
              (assembly_name (slot m (inst s))) (class_name (slot m (inst s)))
              (Some f) (function (slot m (inst s))) (env s))
    as [[rc p] v]. cbn [fst snd].
  unfold bind, store, load, DEBUG, ERROR, emit, ret. cbn [inst env fst snd].
  destruct (rc =? 0); cbn; rewrite ?slot_set_slot_same; reflexivity.
Qed.

Lemma same_but_functions_refl (i : rlm_dotnet_t) : same_but_functions i i.
Proof. unfold same_but_functions. repeat split. Qed.

Lemma same_but_functions_trans (i j k : rlm_dotnet_t) :
  same_but_functions i j -> same_but_functions j k -> same_but_functions i k.
Proof.
  unfold same_but_functions.
  intros (A1 & A2 & A3 & A4 & A5 & A6 & A7 & A8) (B1 & B2 & B3 & B4 & B5 & B6 & B7 & B8).
  repeat split; try congruence;
    destruct (A8 m) as (X1 & X2 & X3); destruct (B8 m) as (Y1 & Y2 & Y3);
    congruence.
Qed.

Lemma same_but_functions_set (m : member) (p : ptr) (i : rlm_dotnet_t) :
  same_but_functions i (set_slot m (set_function p (slot m i)) i).
Proof.
  unfold same_but_functions. repeat split; try reflexivity;
    destruct m, m0; reflexivity.
Qed.

Lemma same_but_functions_configured (i j : rlm_dotnet_t) (m : member) :
  same_but_functions i j -> configured j m = configured i m.
Proof.
  intros (_ & _ & _ & _ & _ & _ & _ & H). unfold configured.
  destruct (H m) as (_ & _ & ->). reflexivity.
Qed.

(** [bind_one_method] returns whenever the delegate creator is resolved, and
    changes nothing but [function] pointers. *)
Lemma bind_one_method_returns (m : member) (name : string) (s : mstate W) :
  coreclr_create_delegate (inst s) <> NULL ->
  exists t rc s',
    bind_one_method w m name s = (t, Returns rc s') /\
    same_but_functions (inst s) (inst s') /\
    filter is_initialize t = [] /\
    attempted t = (if configured (inst s) m then [name] else []) /\
    binder_calls t = (if configured (inst s) m then 1 else 0)%nat.
Proof.
  intros Hp. destruct (configured (inst s) m) eqn:Hc.
  - rewrite (bind_one_method_set m name s Hc Hp).
    do 3 eexists. split; [reflexivity|]. cbn [inst].
    split; [apply same_but_functions_set|].
    destruct (fst (fst _) =? 0); repeat split.
  - rewrite (bind_one_method_unset m name s Hc).
    do 3 eexists. split; [reflexivity|].
    split; [apply same_but_functions_refl|]. repeat split.
Qed.

(** *** Binding all sections *)

(** The batch returns whenever the delegate creator is resolved: every
    configured section of the list is attempted, in order, with one call of
    the creator each, whatever the earlier attempts returned. *)
Lemma bind_methods_returns (l : list member) (s : mstate W) :
  coreclr_create_delegate (inst s) <> NULL ->
  exists t s',
    bind_methods w l s = (t, Returns tt s') /\
    same_but_functions (inst s) (inst s') /\
    filter is_initialize t = [] /\
    attempted t = map member_name (filter (configured (inst s)) l) /\
    binder_calls t = List.length (filter (configured (inst s)) l).
Proof.
  revert s. induction l as [|m l IH]; intros s Hp.
  - do 2 eexists. split; [reflexivity|].
    split; [apply same_but_functions_refl|]. repeat split.
  - destruct (bind_one_method_returns m (member_name m) s Hp)
      as (t1 & rc & s1 & R1 & S1 & I1 & A1 & C1).
    assert (Hp1 : coreclr_create_delegate (inst s1) <> NULL).
    { destruct S1 as (_ & _ & _ & _ & -> & _). exact Hp. }
    destruct (IH s1 Hp1) as (t2 & s2 & R2 & S2 & I2 & A2 & C2).
    cbn [Dotnet.bind_methods].
    rewrite (bind_returns _ _ _ _ _ _ R1). cbv beta. rewrite R2. cbn [fst snd].
    do 2 eexists. split; [reflexivity|].
    split; [eapply same_but_functions_trans; eassumption|].
    rewrite filter_app, I1, I2, attempted_app, A1, A2, binder_calls_app, C1, C2.
    rewrite (filter_ext (configured (inst s1)) (configured (inst s)))
      by (intros a; now apply same_but_functions_configured).
    cbn [filter]. destruct (configured (inst s) m); repeat split.
Qed.

(** With the delegate creator unresolved, the first configured section
    stops the run. *)
Lemma bind_one_method_null (m : member) (name : string) (s : mstate W) :
  configured (inst s) m = true ->
  coreclr_create_delegate (inst s) = NULL ->
  bind_one_method w m name s
  = ([ev_DEBUG (msg_binding name (assembly_name (slot m (inst s)))
                  (class_name (slot m (inst s))) (function_name (slot m (inst s))))],
     NullCall).
Proof.
  unfold configured. intros Hc Hp.
  unfold bind_one_method, bind, load, DEBUG, emit. cbv beta iota.
  destruct (function_name (slot m (inst s))); [|discriminate].
  rewrite Hp. reflexivity.
Qed.

(** However the batch ends, it never calls the initializer. *)
Lemma bind_methods_no_initialize (l : list member) (s : mstate W) :
  filter is_initialize (fst (bind_methods w l s)) = [].
Proof.
  revert s. induction l as [|m l IH]; intros s; [reflexivity|].
  cbn [Dotnet.bind_methods].
  destruct (configured (inst s) m) eqn:Hc.
  - destruct (Z.eq_dec (coreclr_create_delegate (inst s)) NULL) as [Hp|Hp].
    + rewrite (bind_nullcall _ _ _ _ (bind_one_method_null m _ s Hc Hp)).
      reflexivity.
    + pose proof (bind_one_method_set m (member_name m) s Hc Hp) as R.
      cbv zeta in R. rewrite (bind_returns _ _ _ _ _ _ R).
      cbn [fst]. rewrite filter_app.
      match goal with |- _ ++ ?x = _ => assert (E : x = []) by apply IH end.
      rewrite E. destruct (fst (fst _) =? 0); reflexivity.
  - rewrite (bind_returns _ _ _ _ _ _ (bind_one_method_unset m _ s Hc)).
    cbn [fst app]. apply IH.
Qed.

(** *** Instantiation *)

Local Abbreviation initialize_call fn :=
  (ev_coreclr_initialize fn exePath "FreeRadius" 1
     ["TRUSTED_PLATFORM_ASSEMBLIES"] [CLR_PATH]).

Local Abbreviation initialize_result s0 :=
  (do_coreclr_initialize w (coreclr_initialize (inst s0)) exePath "FreeRadius" 1
     ["TRUSTED_PLATFORM_ASSEMBLIES"] [CLR_PATH]
     (hostHandle (inst s0)) (domainId (inst s0)) (env s0)).

(** After a failed load: the failure code, straight away. *)
Lemma mod_instantiate_not_loaded conf (s : mstate W) t0 rc s0 :
  bind_dotnet s = (t0, Returns rc s0) -> rc <> 0 ->
  mod_instantiate conf s
  = (ev_DEBUG msg_mod_instantiate :: t0 ++ [ev_ERROR msg_failed_load],
     Returns RLM_MODULE_FAIL s0).
Proof.
  intros R Hrc. unfold Dotnet.mod_instantiate.
  unfold bind at 1, DEBUG at 1, emit at 1. cbv beta iota.
  rewrite (bind_returns _ _ _ _ _ _ R). cbv beta.
  destruct (rc =? 0) eqn:E; [apply Z.eqb_eq in E; contradiction|].
  reflexivity.
Qed.

(** After a load, with the initializer unresolved: the call through NULL. *)
Lemma mod_instantiate_unresolved conf (s : mstate W) t0 s0 :
  bind_dotnet s = (t0, Returns 0 s0) ->
  coreclr_initialize (inst s0) = NULL ->
  mod_instantiate conf s = (ev_DEBUG msg_mod_instantiate :: t0, NullCall).
Proof.
  intros R Hp. unfold Dotnet.mod_instantiate.
  unfold bind at 1, DEBUG at 1, emit at 1. cbv beta iota.
  rewrite (bind_returns _ _ _ _ _ _ R). cbv beta. cbn [Z.eqb negb].
  unfold bind, load. cbv beta iota. rewrite Hp. cbn. now rewrite app_nil_r.
Qed.

(** After a load, with the initializer resolved: one call of it, then the
    batch of bindings or the error line, then 0. *)
Lemma mod_instantiate_loaded conf (s : mstate W) t0 s0 :
  bind_dotnet s = (t0, Returns 0 s0) ->
  coreclr_initialize (inst s0) <> NULL ->
  let r := initialize_result s0 in
  let hr := fst (fst (fst r)) in
  let s1 := mk_state (set_context (snd (fst (fst r))) (snd (fst r)) (inst s0)) (snd r) in
  mod_instantiate conf s
  = if hr =? 0
    then (ev_DEBUG msg_mod_instantiate
            :: t0 ++ initialize_call (coreclr_initialize (inst s0))
                 :: fst (bind_methods w bound_members s1),
          match snd (bind_methods w bound_members s1) with
          | Returns _ s2 => Returns 0 s2
          | NullCall => NullCall
          end)
    else (ev_DEBUG msg_mod_instantiate
            :: t0 ++ [initialize_call (coreclr_initialize (inst s0));
                      ev_ERROR (msg_init_failed hr)],
          Returns 0 s1).
Proof.
  intros R Hp. cbv zeta.
  unfold Dotnet.mod_instantiate, bind, DEBUG, ERROR, emit, load, store, ret.
  cbv beta iota. rewrite R. cbn [Z.eqb negb]. cbv beta iota.
  rewrite call_ptr_returns by exact Hp.
  change (Z.of_nat (List.length ["TRUSTED_PLATFORM_ASSEMBLIES"])) with 1.
  destruct (initialize_result s0) as [[[hr host] domain] v]. cbn [fst snd inst env].
  destruct (hr =? 0).
  - destruct (bind_methods w bound_members _) as [t1 [[] s2|]];
      cbn [app fst snd]; rewrite ?app_nil_r; reflexivity.
  - reflexivity.
Qed.

(** *** Shutdown *)

Lemma mod_detach_resolved (s : mstate W) :
  coreclr_shutdown_2 (inst s) <> NULL ->
  let r := do_coreclr_shutdown_2 w (coreclr_shutdown_2 (inst s))
             (hostHandle (inst s)) (domainId (inst s)) 0 (env s) in
  mod_detach w s
  = ([ev_coreclr_shutdown_2 (coreclr_shutdown_2 (inst s))
        (hostHandle (inst s)) (domainId (inst s));
      ev_INFO (msg_shutdown (fst (fst r)) (snd (fst r)))],
     Returns 0 (mk_state (inst s) (snd r))).
Proof.
  intros Hp. cbv zeta. unfold mod_detach.
  unfold bind at 1, load at 1. cbv beta iota.
  unfold bind at 1, load at 1. cbv beta iota.
  unfold bind at 1, load at 1. cbv beta iota.
  unfold bind at 1. rewrite call_ptr_returns by exact Hp.
  destruct (do_coreclr_shutdown_2 w _ _ _ 0 (env s)) as [[hr latched] v].
  reflexivity.
Qed.

Lemma mod_detach_unresolved (s : mstate W) :
  coreclr_shutdown_2 (inst s) = NULL -> mod_detach w s = ([], NullCall).
Proof.
  intros Hp. unfold mod_detach, bind, load. cbv beta iota. now rewrite Hp.
Qed.

(** A failed initialization is logged at error level, skips the binder, and
    still ends in [return 0]. *)
Lemma initialize_failure_returns_zero conf (s : mstate W) t0 s0 :
  bind_dotnet s = (t0, Returns 0 s0) ->
  coreclr_initialize (inst s0) <> NULL ->
  fst (fst (fst (initialize_result s0))) <> 0 ->
  exists t s',
    mod_instantiate conf s = (t, Returns 0 s') /\
    In (ev_ERROR (msg_init_failed (fst (fst (fst (initialize_result s0)))))) t /\
    binder_calls t = binder_calls t0.
Proof.
  intros R Hi Hhr. pose proof (mod_instantiate_loaded conf s t0 s0 R Hi) as E.
  cbv zeta in E. rewrite E.
  destruct (fst (fst (fst _)) =? 0) eqn:E0; [apply Z.eqb_eq in E0; contradiction|].
  do 2 eexists. split; [reflexivity|]. split.
  - right. apply in_or_app. right. right. now left.
  - unfold binder_calls. cbn [filter is_create_delegate].
    rewrite filter_app. cbn [filter is_create_delegate]. now rewrite app_nil_r.
Qed.

(** The sections bound by [mod_instantiate] are pairwise distinct. *)
Lemma bound_members_NoDup : NoDup bound_members.
Proof.
  unfold Dotnet.bound_members.
  destruct WITH_COA; repeat constructor; simpl; intuition discriminate.
Qed.

(** *** Dispatch *)

(** A section handler returns the no-op code, produces no event and leaves
    the state as it is, whatever the section holds. *)
Lemma MOD_FUNC_noop (x : member) (request : REQUEST) (s : mstate W) :
  MOD_FUNC x request s = ([], Returns RLM_MODULE_NOOP s).
Proof. reflexivity. Qed.

(** *** The claims on one instance *)

(** C4.  For every section handler of the method table whose section has no
    configured function identifier, and for every request, dispatch returns
    [RLM_MODULE_NOOP]; it produces no event, so no foreign handle is
    invoked, and the binder leaves such a section alone. *)
Theorem unconfigured_stage_dispatches_noop
  (x : member) (request : REQUEST) (s : mstate W) :
  In x methods ->
  function_name (slot x (inst s)) = None ->
  MOD_FUNC x request s = ([], Returns RLM_MODULE_NOOP s) /\
  bind_one_method w x (member_name x) s = ([], Returns 0 s).
Proof.
  intros _ Hf. split; [apply MOD_FUNC_noop|].
  apply bind_one_method_unset. unfold configured. now rewrite Hf.
Qed.

(** C5.  For every section handler of the method table whose binding failed
    (the delegate creator returned nonzero), and for every request, dispatch
    on the state the binder left returns [RLM_MODULE_NOOP] and produces no
    event: the handle the failed call left in the section is never invoked. *)
Theorem failed_binding_dispatches_noop
  (x : member) (request : REQUEST) (s s' : mstate W) (t : trace) (rc : Z) :
  In x methods ->
  bind_one_method w x (member_name x) s = (t, Returns rc s') ->
  rc <> 0 ->
  In (member_name x) (failed t) /\
  MOD_FUNC x request s' = ([], Returns RLM_MODULE_NOOP s').
Proof.
  intros _ R Hrc. split; [|apply MOD_FUNC_noop].
  destruct (configured (inst s) x) eqn:Hc.
  - destruct (Z.eq_dec (coreclr_create_delegate (inst s)) NULL) as [Hp|Hp].
    + rewrite (bind_one_method_null x _ s Hc Hp) in R. discriminate.
    + pose proof (bind_one_method_set x (member_name x) s Hc Hp) as E.
      cbv zeta in E. rewrite E in R. injection R as <- <- _.
      destruct (fst (fst _) =? 0) eqn:E0.
      * apply Z.eqb_eq in E0. contradiction.
      * simpl. now left.
  - rewrite (bind_one_method_unset x _ s Hc) in R. injection R as _ <- _.
    contradiction.
Qed.

(** C6.  If [dlopen] of [clr_library] fails, [mod_instantiate] returns the
    failure code [RLM_MODULE_FAIL] and the delegate creator is not called. *)
Theorem load_failure_fails_instantiation (conf : CONF_SECTION) (s : mstate W) :
  fst (dlopen w (clr_library (inst s)) (Z.lor RTLD_NOW RTLD_GLOBAL) (env s)) = NULL ->
  exists t s',
    mod_instantiate conf s = (t, Returns RLM_MODULE_FAIL s') /\
    In (ev_ERROR msg_failed_load) t /\
    binder_calls t = 0%nat.
Proof.
  intros Hl. destruct (bind_dotnet_returns s) as (t0 & s0 & R & C & _ & _).
  rewrite Hl in R. cbn [Z.eqb NULL] in R.
  rewrite (mod_instantiate_not_loaded conf s t0 1 s0 R) by discriminate.
  do 2 eexists. split; [reflexivity|]. split.
  - right. apply in_or_app. right. now left.
  - unfold binder_calls. cbn [filter is_create_delegate].
    now rewrite filter_app, C.
Qed.

(** With the shutdown entry point resolved, [mod_detach] calls it exactly
    once, logs its status and latched exit code, and returns 0 whatever that
    status is. *)
Theorem detach_reports_shutdown_and_succeeds (s : mstate W) :
  coreclr_shutdown_2 (inst s) <> NULL ->
  let r := do_coreclr_shutdown_2 w (coreclr_shutdown_2 (inst s))
             (hostHandle (inst s)) (domainId (inst s)) 0 (env s) in
  exists t,
    mod_detach w s = (t, Returns 0 (mk_state (inst s) (snd r))) /\
    List.length (filter is_shutdown t) = 1%nat /\
    In (ev_INFO (msg_shutdown (fst (fst r)) (snd (fst r)))) t.
Proof.
  intros Hp r. pose proof (mod_detach_resolved s Hp) as E. cbv zeta in E.
  eexists. split; [exact E|]. split; [reflexivity|]. right. now left.
Qed.

(** C10.  Every call of the initializer made by [mod_instantiate] has the
    compiled-in base path, the name "FreeRadius" and the one property
    [TRUSTED_PLATFORM_ASSEMBLIES] with the compiled-in value, whatever the
    instance holds; and there is exactly one such call once [bind_dotnet] has
    resolved the initializer. *)
Theorem initialize_arguments_are_fixed (conf : CONF_SECTION) (s : mstate W) :
  (forall e, In e (fst (mod_instantiate conf s)) -> is_initialize e = true ->
     exists fn, e = ev_coreclr_initialize fn exePath "FreeRadius" 1
                      ["TRUSTED_PLATFORM_ASSEMBLIES"] [CLR_PATH]) /\
  (forall t0 s0,
     bind_dotnet s = (t0, Returns 0 s0) ->
     coreclr_initialize (inst s0) <> NULL ->
     filter is_initialize (fst (mod_instantiate conf s))
     = [ev_coreclr_initialize (coreclr_initialize (inst s0)) exePath
          "FreeRadius" 1 ["TRUSTED_PLATFORM_ASSEMBLIES"] [CLR_PATH]]).
Proof.
  assert (Loaded : forall t0 s0,
     bind_dotnet s = (t0, Returns 0 s0) ->
     filter is_initialize t0 = [] ->
     coreclr_initialize (inst s0) <> NULL ->
     filter is_initialize (fst (mod_instantiate conf s))
     = [initialize_call (coreclr_initialize (inst s0))]).
  { intros t0 s0 R I0 Hi.
    pose proof (mod_instantiate_loaded conf s t0 s0 R Hi) as E.
    cbv zeta in E. rewrite E. destruct (fst (fst (fst _)) =? 0); cbn [fst].
    - cbn [filter is_initialize]. rewrite filter_app, I0.
      cbn [filter is_initialize app].
      match goal with |- _ :: ?x = _ =>
        assert (E1 : x = []) by apply bind_methods_no_initialize end.
      now rewrite E1.
    - cbn [filter is_initialize]. now rewrite filter_app, I0. }
  destruct (bind_dotnet_returns s) as (t0 & s0 & R & _ & I0 & _).
  split.
  - intros e He Hinit.
    assert (Hf : In e (filter is_initialize (fst (mod_instantiate conf s))))
      by (apply filter_In; now split).
    destruct (fst (dlopen w _ _ (env s)) =? NULL).
    + rewrite (mod_instantiate_not_loaded conf s t0 1 s0 R) in Hf by discriminate.
      cbn [fst filter is_initialize] in Hf. rewrite filter_app, I0 in Hf.
      destruct Hf.
    + destruct (Z.eq_dec (coreclr_initialize (inst s0)) NULL) as [Hi|Hi].
      * rewrite (mod_instantiate_unresolved conf s t0 s0 R Hi) in Hf.
        cbn [fst filter is_initialize] in Hf. rewrite I0 in Hf. destruct Hf.
      * rewrite (Loaded t0 s0 R I0 Hi) in Hf. destruct Hf as [<-|[]]. eauto.
  - intros t1 s1 R1 Hi. rewrite R in R1.
    destruct (fst (dlopen w _ _ (env s)) =? NULL); [discriminate|].
    injection R1 as <- <-. exact (Loaded t0 s0 R I0 Hi).
Qed.

(** *** Binding against a test double of the delegate creator *)

Section Stub.

(** The status the creator returns and the handle it stores depend on the
    arguments of the call only, not on the state of the world. *)
Variable stub : ptr -> ptr -> Z -> cstr -> cstr -> cstr -> ptr -> Z * ptr.

Hypothesis stub_spec :
  forall fn host domain asm cls fn_name p v,
    fst (do_coreclr_create_delegate w fn host domain asm cls fn_name p v)
    = stub fn host domain asm cls fn_name p.

Lemma creator_fails_configured (i : rlm_dotnet_t) (m : member) :
  creator_fails stub i m = true -> configured i m = true.
Proof. unfold creator_fails. intros H. now apply andb_true_iff in H. Qed.

Lemma configured_set_other (m a : member) (d : dotnet_func_def_t)
  (i : rlm_dotnet_t) :
  m <> a -> configured (set_slot m d i) a = configured i a.
Proof. intros H. unfold configured. now rewrite slot_set_slot_other. Qed.

Lemma with_delegate_args_set_other {A} (m a : member) (d : dotnet_func_def_t)
  (i : rlm_dotnet_t) (k : ptr -> ptr -> Z -> cstr -> cstr -> cstr -> ptr -> A) :
  m <> a ->
  with_delegate_args (set_slot m d i) a k = with_delegate_args i a k.
Proof.
  intros H. unfold with_delegate_args. now rewrite slot_set_slot_other.
Qed.

Lemma creator_fails_set_other (m a : member) (d : dotnet_func_def_t)
  (i : rlm_dotnet_t) :
  m <> a -> creator_fails stub (set_slot m d i) a = creator_fails stub i a.
Proof.
  intros H. unfold creator_fails.
  now rewrite configured_set_other, with_delegate_args_set_other.
Qed.

(** The batch over a duplicate-free list: which sections it reports as
    failed, and what it leaves in each section, in closed form. *)
Lemma bind_methods_stub (l : list member) (s : mstate W) :
  NoDup l ->
  coreclr_create_delegate (inst s) <> NULL ->
  exists t s',
    bind_methods w l s = (t, Returns tt s') /\
    failed t = map member_name (filter (creator_fails stub (inst s)) l) /\
    same_but_functions (inst s) (inst s') /\
    forall m,
      slot m (inst s')
      = if existsb (member_eqb m) l && configured (inst s) m
        then set_function (snd (with_delegate_args (inst s) m stub))
               (slot m (inst s))
        else slot m (inst s).
Proof.
  revert s. induction l as [|m l IH]; intros s Hnd Hp.
  - do 2 eexists. split; [reflexivity|]. split; [reflexivity|].
    split; [apply same_but_functions_refl|]. reflexivity.
  - apply NoDup_cons_iff in Hnd as [Hm Hnd].
    cbn [Dotnet.bind_methods].
    destruct (configured (inst s) m) eqn:Hc.
    + pose proof (bind_one_method_set m (member_name m) s Hc Hp) as R1.
      cbv zeta in R1.
      assert (Hr : fst (with_delegate_args (inst s) m
                          (do_coreclr_create_delegate w) (env s))
                   = with_delegate_args (inst s) m stub)
        by (unfold with_delegate_args; apply stub_spec).
      rewrite Hr in R1.
      set (rc := fst (with_delegate_args (inst s) m stub)) in *.
      set (p := snd (with_delegate_args (inst s) m stub)) in *.
      match type of R1 with _ = (_, Returns _ ?x) => set (s1 := x) in * end.
      destruct (IH s1 Hnd Hp) as (t2 & s2 & R2 & F2 & S2 & L2).
      rewrite (bind_returns _ _ _ _ _ _ R1). rewrite R2. cbn [fst snd].
      do 2 eexists. split; [reflexivity|].
      assert (Hother : forall a, In a l -> m <> a)
        by (intros a Ha ->; contradiction).
      split; [|split].
      * rewrite failed_app, F2. cbn [filter].
        unfold creator_fails at 2. rewrite Hc. cbn [andb]. fold rc.
        rewrite (filter_ext_in (creator_fails stub (inst s1))
                   (creator_fails stub (inst s)))
          by (intros a Ha; apply creator_fails_set_other; auto).
        destruct (rc =? 0); reflexivity.
      * eapply same_but_functions_trans; [|exact S2].
        apply same_but_functions_set.
      * intros m0. rewrite L2. cbn [existsb].
        destruct (member_eqb m0 m) eqn:E.
        -- apply member_eqb_eq in E. subst m0.
           rewrite (existsb_member_notin m l Hm), Hc. cbn [andb orb].
           unfold s1. cbn [inst]. apply slot_set_slot_same.
        -- assert (Hne : m <> m0).
           { intros ->. now rewrite member_eqb_refl in E. }
           cbn [orb]. unfold s1. cbn [inst].
           now rewrite configured_set_other, with_delegate_args_set_other,
             slot_set_slot_other.
    + rewrite (bind_returns _ _ _ _ _ _ (bind_one_method_unset m _ s Hc)).
      destruct (IH s Hnd Hp) as (t2 & s2 & R2 & F2 & S2 & L2).
      rewrite R2. cbn [fst snd app].
      do 2 eexists. split; [reflexivity|]. split; [|split].
      * rewrite F2. cbn [filter]. unfold creator_fails at 2.
        now rewrite Hc.
      * exact S2.
      * intros m0. rewrite L2. cbn [existsb].
        destruct (member_eqb m0 m) eqn:E; [|reflexivity].
        apply member_eqb_eq in E. subst m0. rewrite Hc.
        now rewrite !andb_false_r.
Qed.

(** The sections a trace of the batch reports as bound. *)
Lemma bound_names_closed (i : rlm_dotnet_t) (l : list member) (t : trace) :
  attempted t = map member_name (filter (configured i) l) ->
  failed t = map member_name (filter (creator_fails stub i) l) ->
  bound_names t
  = map member_name
      (filter (fun m => configured i m && negb (creator_fails stub i m)) l).
Proof.
  intros A F. unfold bound_names. rewrite A, F, filter_map_swap. f_equal.
  rewrite filter_filter. apply filter_ext_in. intros a Ha.
  now rewrite existsb_member_name.
Qed.

(** C8.  Binding is a best-effort batch, independent per section.  Against a
    delegate creator whose outcome depends on the arguments of the call
    only, and for every duplicate-free list [l] of sections, of which [N]
    are configured and the creator fails for [M]: the batch returns; it
    attempts exactly the [N] configured sections, in order, with one call of
    the creator each, whatever the earlier attempts returned; it reports
    exactly the [M] sections the creator fails for as failed and the other
    [N - M] as bound; each section ends with the handle the creator stores
    for it; and every reordering [l'] of [l] leaves the same instance and
    reports the same sections as failed and as bound. *)
Theorem binding_is_best_effort_per_section (l : list member) (s : mstate W) :
  NoDup l ->
  coreclr_create_delegate (inst s) <> NULL ->
  let i := inst s in
  let N := List.length (filter (configured i) l) in
  let M := List.length (filter (creator_fails stub i) l) in
  exists t s',
    bind_methods w l s = (t, Returns tt s') /\
    attempted t = map member_name (filter (configured i) l) /\
    binder_calls t = N /\
    failed t = map member_name (filter (creator_fails stub i) l) /\
    List.length (failed t) = M /\
    List.length (bound_names t) = (N - M)%nat /\
    (forall m,
       slot m (inst s')
       = if existsb (member_eqb m) l && configured i m
         then set_function (snd (with_delegate_args i m stub)) (slot m i)
         else slot m i) /\
    forall l', Permutation l l' ->
      exists t' s'',
        bind_methods w l' s = (t', Returns tt s'') /\
        inst s'' = inst s' /\
        Permutation (failed t') (failed t) /\
        Permutation (bound_names t') (bound_names t).
Proof.
  intros Hnd Hp i N M.
  destruct (bind_methods_stub l s Hnd Hp) as (t & s' & R & F & S & L).
  destruct (bind_methods_returns l s Hp) as (t0 & s0 & R0 & _ & _ & A & C).
  rewrite R in R0. injection R0 as <- <-.
  pose proof (bound_names_closed i l t A F) as B.
  exists t, s'. repeat (split; [assumption|]).
  split; [rewrite F; apply length_map|].
  split.
  { rewrite B, length_map. subst N M.
    rewrite (length_filter_split (configured i) (creator_fails stub i) l)
      by apply creator_fails_configured.
    lia. }
  split; [exact L|].
  intros l' P.
  assert (Hnd' : NoDup l') by (eapply Permutation_NoDup; eassumption).
  destruct (bind_methods_stub l' s Hnd' Hp) as (t' & s'' & R' & F' & S' & L').
  destruct (bind_methods_returns l' s Hp) as (t1 & s1 & R1 & _ & _ & A' & _).
  rewrite R' in R1. injection R1 as <- <-.
  pose proof (bound_names_closed i l' t' A' F') as B'.
  exists t', s''. split; [exact R'|]. split; [|split].
  - destruct S as (S1 & S2 & S3 & S4 & S5 & S6 & S7 & _).
    destruct S' as (T1 & T2 & T3 & T4 & T5 & T6 & T7 & _).
    apply inst_ext; try congruence.
    intros m. rewrite L, L'.
    now rewrite (existsb_Permutation (member_eqb m) l l' P).
  - rewrite F, F'. apply Permutation_map, Permutation_filter.
    now apply Permutation_sym.
  - rewrite B, B'. apply Permutation_map, Permutation_filter.
    now apply Permutation_sym.
Qed.

End Stub.

End Properties.

(** ** The module against the test double *)

(** C1.  Against a double whose initializer returns [E_FAIL],
    [mod_instantiate] logs "Failed coreclr_initialize" at error level and
    makes no binder call, but it returns 0, the value it returns after a
    complete instantiation, where the load failure next to it returns
    [RLM_MODULE_FAIL]. *)
Theorem initialize_failure_is_reported_as_success :
  return_code (run_instantiate initialize_fails fresh) = Some 0 /\
  In (ev_ERROR (msg_init_failed E_FAIL)) (fst (run_instantiate initialize_fails fresh)) /\
  binder_calls (fst (run_instantiate initialize_fails fresh)) = 0%nat /\
  return_code (run_instantiate healthy fresh) = Some 0 /\
  return_code (run_instantiate no_library fresh) = Some 1.
Proof.
  destruct (initialize_failure_returns_zero nat 2 8 sample_CLR_PATH 1 false unit
              (double initialize_fails) tt fresh _ _ eq_refl)
    as (t & s' & R & E & C); try discriminate.
  unfold run_instantiate, return_code. rewrite R. cbn [fst snd].
  repeat split; assumption || reflexivity.
Qed.

(** C2.  Against a double whose library lacks [coreclr_initialize]: the
    failed [dlsym] is logged, [bind_dotnet] goes on to resolve the other two
    symbols and reports success, and [mod_instantiate] then calls the
    initializer through the NULL pointer instead of returning a failure. *)
Theorem unresolved_initializer_is_called_through_null :
  run_instantiate initialize_missing fresh
  = ([ev_DEBUG msg_mod_instantiate;
      ev_dlopen (Some DEFAULT_CLR_LIBRARY) 10;
      ev_dlsym 1024 "coreclr_initialize";
      ev_dlerror;
      ev_ERROR (msg_dlerror (Some "dlerror"));
      ev_dlsym 1024 "coreclr_create_delegate";
      ev_dlsym 1024 "coreclr_shutdown_2"],
     NullCall).
Proof.
  unfold run_instantiate.
  erewrite mod_instantiate_unresolved; [reflexivity|reflexivity|reflexivity].
Qed.

(** C3.  [mod_detach] on an instance no instantiate has run on, and on the
    instance a failed load has left behind, calls the shutdown entry point
    through the NULL pointer. *)
Theorem detach_without_instantiate_calls_null :
  run_detach healthy (mk_state zero_instance O) = ([], NullCall) /\
  exists t s',
    run_instantiate no_library fresh = (t, Returns 1 s') /\
    run_detach no_library s' = ([], NullCall).
Proof.
  split.
  - apply mod_detach_unresolved. reflexivity.
  - do 2 eexists. split; [reflexivity|].
    apply mod_detach_unresolved. reflexivity.
Qed.

(** ** The claims at concrete inputs *)

Lemma unconfigured_stage_dispatches_noop_witness :
  In m_preacct (methods false) /\
  function_name (slot m_preacct (inst fresh)) = None /\
  run_dispatch m_preacct fresh = ([], Returns 7 fresh) /\
  bind_one_method (double healthy) m_preacct "preacct" fresh
  = ([], Returns 0 fresh).
Proof.
  assert (H1 : In m_preacct (methods false)) by (simpl; tauto).
  assert (H2 : function_name (slot m_preacct (inst fresh)) = None)
    by reflexivity.
  split; [exact H1|]. split; [exact H2|].
  exact (unconfigured_stage_dispatches_noop nat 7 false unit (double healthy)
           m_preacct tt fresh H1 H2).
Defined.

Lemma failed_binding_dispatches_noop_witness :
  let s := mk_state ready_instance O in
  let s' := mk_state
              (set_slot m_accounting (set_function NULL (func "Accounting"))
                 ready_instance) 1%nat in
  In m_accounting (methods false) /\
  snd (bind_one_method (double one_bind_fails) m_accounting "accounting" s)
  = Returns 0x80131513 s' /\
  0x80131513 <> 0 /\
  In "accounting"
    (failed (fst (bind_one_method (double one_bind_fails) m_accounting
                    "accounting" s))) /\
  run_dispatch m_accounting s' = ([], Returns 7 s').
Proof.
  intros s s'.
  assert (H1 : In m_accounting (methods false)) by (simpl; tauto).
  assert (H2 : bind_one_method (double one_bind_fails) m_accounting
                 (member_name m_accounting) s
               = (fst (bind_one_method (double one_bind_fails) m_accounting
                         "accounting" s),
                  Returns 0x80131513 s')) by reflexivity.
  assert (H3 : 0x80131513 <> 0) by discriminate.
  split; [exact H1|]. split; [reflexivity|]. split; [exact H3|].
  exact (failed_binding_dispatches_noop nat 7 false unit
           (double one_bind_fails) m_accounting tt s s' _ _ H1 H2 H3).
Defined.

Lemma load_failure_fails_instantiation_witness :
  fst (dlopen (double no_library) (clr_library (inst fresh)) (Z.lor 2 8)
         (env fresh)) = NULL /\
  exists t s',
    run_instantiate no_library fresh = (t, Returns 1 s') /\
    In (ev_ERROR msg_failed_load) t /\
    binder_calls t = 0%nat.
Proof.
  assert (H : fst (dlopen (double no_library) (clr_library (inst fresh))
                     (Z.lor 2 8) (env fresh)) = NULL) by reflexivity.
  split; [exact H|].
  exact (load_failure_fails_instantiation nat 2 8 sample_CLR_PATH 1 false unit
           (double no_library) tt fresh H).
Defined.

Lemma detach_reports_shutdown_and_succeeds_witness :
  coreclr_shutdown_2 ready_instance <> NULL /\
  exists t,
    run_detach shutdown_fails (mk_state ready_instance O)
    = (t, Returns 0 (mk_state ready_instance 1%nat)) /\
    List.length (filter is_shutdown t) = 1%nat /\
    In (ev_INFO (msg_shutdown E_FAIL 0)) t.
Proof.
  assert (H : coreclr_shutdown_2 (inst (mk_state ready_instance O)) <> NULL)
    by discriminate.
  split; [exact H|].
  exact (detach_reports_shutdown_and_succeeds nat (double shutdown_fails)
           (mk_state ready_instance O) H).
Defined.

Lemma binding_is_best_effort_per_section_witness :
  NoDup (bound_members false) /\
  coreclr_create_delegate ready_instance <> NULL /\
  exists t s',
    bind_methods (double one_bind_fails) (bound_members false)
      (mk_state ready_instance O) = (t, Returns tt s') /\
    attempted t = ["authorize"; "authenticate"; "accounting"; "post_auth"] /\
    binder_calls t = 4%nat /\
    failed t = ["accounting"] /\
    List.length (bound_names t) = 3%nat /\
    function (authorize (inst s')) = delegate_address (Some "Authorize") /\
    function (accounting (inst s')) = NULL.
Proof.
  assert (H1 : NoDup (bound_members false)) by apply bound_members_NoDup.
  assert (H2 : coreclr_create_delegate (inst (mk_state ready_instance O)) <> NULL)
    by discriminate.
  split; [exact H1|]. split; [exact H2|].
  destruct (binding_is_best_effort_per_section nat (double one_bind_fails)
              (double_creator one_bind_fails)
              (fun _ _ _ _ _ _ _ _ => eq_refl)
              (bound_members false) (mk_state ready_instance O) H1 H2)
    as (t & s' & R & A & C & F & _ & B & L & _).
  exists t, s'. split; [exact R|]. split; [exact A|]. split; [exact C|].
  split; [exact F|]. split; [exact B|]. split.
  - change (function (slot m_authorize (inst s'))
            = delegate_address (Some "Authorize")).
    rewrite (L m_authorize). reflexivity.
  - change (function (slot m_accounting (inst s')) = NULL).
    rewrite (L m_accounting). reflexivity.
Defined.

Lemma initialize_arguments_are_fixed_witness :
  filter is_initialize (fst (run_instantiate one_bind_fails fresh))
  = [ev_coreclr_initialize 4096 exePath "FreeRadius" 1
       ["TRUSTED_PLATFORM_ASSEMBLIES"] [sample_CLR_PATH]] /\
  filter is_initialize
    (fst (run_instantiate one_bind_fails (mk_state zero_instance 7%nat)))
  = [ev_coreclr_initialize 4096 exePath "FreeRadius" 1
       ["TRUSTED_PLATFORM_ASSEMBLIES"] [sample_CLR_PATH]].
Proof.
  split.
  - refine (proj2 (initialize_arguments_are_fixed nat 2 8 sample_CLR_PATH 1
                     false unit (double one_bind_fails) tt fresh)
              _ (mk_state loaded_instance 4%nat) eq_refl _).
    discriminate.
  - refine (proj2 (initialize_arguments_are_fixed nat 2 8 sample_CLR_PATH 1
                     false unit (double one_bind_fails) tt
                     (mk_state zero_instance 7%nat))
              _ (mk_state
                   (set_coreclr_shutdown_2 4128
                      (set_coreclr_create_delegate 4112
                         (set_coreclr_initialize 4096
                            (set_dylib 1024 zero_instance)))) 11%nat)
              eq_refl _).
    discriminate.
Defined.

(** ** Further properties of the module *)

Lemma existsb_ext_all {A} (f g : A -> bool) (l : list A) :
  (forall a, f a = g a) -> existsb f l = existsb g l.
Proof.
  intros H. induction l as [|a l IH]; [reflexivity|].
  cbn [existsb]. now rewrite H, IH.
Qed.

Section Coverage.

Variable W : Type.
Variables RTLD_NOW RTLD_GLOBAL : Z.
Variable CLR_PATH : string.
Variables RLM_MODULE_FAIL RLM_MODULE_NOOP : Z.
Variable WITH_COA : bool.
Variables CONF_SECTION REQUEST : Type.
Variable w : world W.

Local Abbreviation bind_dotnet := (bind_dotnet W RTLD_NOW RTLD_GLOBAL w).
Local Abbreviation bound_members := (bound_members WITH_COA).
Local Abbreviation methods := (methods WITH_COA).
Local Abbreviation mod_instantiate :=
  (mod_instantiate W RTLD_NOW RTLD_GLOBAL CLR_PATH RLM_MODULE_FAIL WITH_COA
     CONF_SECTION w).
Local Abbreviation MOD_FUNC := (MOD_FUNC W RLM_MODULE_NOOP REQUEST).
Local Abbreviation initialize_result s0 :=
  (do_coreclr_initialize w (coreclr_initialize (inst s0)) exePath "FreeRadius" 1
     ["TRUSTED_PLATFORM_ASSEMBLIES"] [CLR_PATH]
     (hostHandle (inst s0)) (domainId (inst s0)) (env s0)).

(** *** The loader in detail *)

(** One lookup: the symbol is looked up in [inst->dylib], the result is
    stored whatever it is, and a NULL result costs one error line. *)
Lemma resolve_trace symbol set (s : mstate W) :
  let p := fst (dlsym w (dylib (inst s)) symbol (env s)) in
  exists t v,
    resolve w symbol set s = (t, Returns tt (mk_state (set p (inst s)) v)) /\
    filter is_dlsym t = [ev_dlsym (dylib (inst s)) symbol] /\
    filter is_dlopen t = [] /\
    attempted t = [] /\
    List.length (filter is_error t) = (if p =? NULL then 1%nat else 0%nat).
Proof.
  unfold resolve, bind, load, store, extern, ERROR, emit, ret; simpl.
  destruct (dlsym w (dylib (inst s)) symbol (env s)) as [p v1]; simpl.
  destruct (p =? NULL); simpl.
  - destruct (dlerror w v1) as [e v2]; simpl. eauto 10.
  - eauto 10.
Qed.

(** X1.  After a failed [dlopen], [bind_dotnet] returns 1 having logged one
    error line; it looks no symbol up, and of the instance only [dylib]
    changes (to NULL): the three entry points keep what they held. *)
Theorem bind_dotnet_load_failure (s : mstate W) :
  fst (dlopen w (clr_library (inst s)) (Z.lor RTLD_NOW RTLD_GLOBAL) (env s)) = NULL ->
  exists t s',
    bind_dotnet s = (t, Returns 1 s') /\
    filter is_dlopen t
    = [ev_dlopen (clr_library (inst s)) (Z.lor RTLD_NOW RTLD_GLOBAL)] /\
    filter is_dlsym t = [] /\
    List.length (filter is_error t) = 1%nat /\
    inst s' = set_dylib NULL (inst s).
Proof.
  intros Hl. unfold Dotnet.bind_dotnet, bind, load, store, extern, ERROR, emit, ret.
  cbv beta iota. revert Hl.
  destruct (dlopen w (clr_library (inst s)) (Z.lor RTLD_NOW RTLD_GLOBAL) (env s))
    as [h v1]. cbn [fst snd inst env]. intros ->. cbn [Z.eqb NULL].
  cbn [inst env]. destruct (dlerror w v1) as [e v2]. cbn. eauto 10.
Qed.

(** X2.  After a successful [dlopen], [bind_dotnet] returns 0 whatever
    [dlsym] finds.  It opens the configured library once, looks the three
    entry points up in the handle it got, in the order of the source, and
    keeps that handle; it logs exactly one error line per entry point left
    NULL; and it changes neither the context, nor the configuration, nor any
    section. *)
Theorem bind_dotnet_loaded (s : mstate W) :
  let h := fst (dlopen w (clr_library (inst s)) (Z.lor RTLD_NOW RTLD_GLOBAL)
                  (env s)) in
  h <> NULL ->
  exists t s',
    bind_dotnet s = (t, Returns 0 s') /\
    filter is_dlopen t
    = [ev_dlopen (clr_library (inst s)) (Z.lor RTLD_NOW RTLD_GLOBAL)] /\
    filter is_dlsym t
    = [ev_dlsym h "coreclr_initialize"; ev_dlsym h "coreclr_create_delegate";
       ev_dlsym h "coreclr_shutdown_2"] /\
    dylib (inst s') = h /\
    List.length (filter is_error t) = unresolved (inst s') /\
    hostHandle (inst s') = hostHandle (inst s) /\
    domainId (inst s') = domainId (inst s) /\
    clr_library (inst s') = clr_library (inst s) /\
    forall m, slot m (inst s') = slot m (inst s).
Proof.
  cbv zeta. unfold Dotnet.bind_dotnet.
  unfold bind at 1, load at 1. cbv beta iota.
  unfold bind at 1, extern at 1. cbv beta iota.
  destruct (dlopen w (clr_library (inst s)) (Z.lor RTLD_NOW RTLD_GLOBAL) (env s))
    as [h v1]. cbn [fst]. intros Hh.
  unfold bind at 1, store at 1. cbv beta iota. cbn [inst env].
  destruct (h =? NULL) eqn:Eh; [apply Z.eqb_eq in Eh; contradiction|].
  set (s1 := mk_state (set_dylib h (inst s)) v1).
  destruct (resolve_trace "coreclr_initialize" set_coreclr_initialize s1)
    as (t1 & v2 & R1 & S1 & O1 & _ & E1). cbv zeta in R1, E1.
  rewrite (bind_returns _ _ _ _ _ _ _ R1). cbv beta.
  match type of R1 with _ = (_, Returns _ ?x) => set (s2 := x) in * end.
  destruct (resolve_trace "coreclr_create_delegate" set_coreclr_create_delegate s2)
    as (t2 & v3 & R2 & S2 & O2 & _ & E2). cbv zeta in R2, E2.
  rewrite (bind_returns _ _ _ _ _ _ _ R2). cbv beta.
  match type of R2 with _ = (_, Returns _ ?x) => set (s3 := x) in * end.
  destruct (resolve_trace "coreclr_shutdown_2" set_coreclr_shutdown_2 s3)
    as (t3 & v4 & R3 & S3 & O3 & _ & E3). cbv zeta in R3, E3.
  rewrite (bind_returns _ _ _ _ _ _ _ R3). cbv beta.
  unfold ret. cbn [fst snd].
  do 2 eexists. split; [reflexivity|].
  cbn [filter is_dlopen is_dlsym is_error].
  rewrite !filter_app, S1, S2, S3, O1, O2, O3, !length_app, E1, E2, E3.
  cbn [filter app List.length inst env dylib s1 s2 s3].
  unfold unresolved. cbn [inst env].
  repeat split.
  cbn [coreclr_initialize coreclr_create_delegate coreclr_shutdown_2
       set_coreclr_shutdown_2 set_coreclr_create_delegate set_coreclr_initialize
       set_dylib dylib filter].
  destruct (fst (dlsym w h "coreclr_initialize" v1) =? NULL),
           (fst (dlsym w h "coreclr_create_delegate" v2) =? NULL),
           (fst (dlsym w h "coreclr_shutdown_2" v3) =? NULL); reflexivity.
Qed.

(** *** The binder in detail *)

(** The two ways [bind_one_method] returns. *)
Lemma bind_one_method_inv (m : member) (name : string) (s s' : mstate W)
  (t : trace) (rc : Z) :
  bind_one_method w m name s = (t, Returns rc s') ->
  (configured (inst s) m = false /\ t = [] /\ rc = 0 /\ s' = s) \/
  (configured (inst s) m = true /\
   coreclr_create_delegate (inst s) <> NULL /\
   let d := slot m (inst s) in
   let r := with_delegate_args (inst s) m (do_coreclr_create_delegate w) (env s) in
   t = [ev_DEBUG (msg_binding name (assembly_name d) (class_name d) (function_name d));
        ev_coreclr_create_delegate (coreclr_create_delegate (inst s))
          (hostHandle (inst s)) (domainId (inst s))
          (assembly_name d) (class_name d) (function_name d);
        if fst (fst r) =? 0 then ev_DEBUG (msg_bound (snd (fst r)))
        else ev_ERROR (msg_bind_failure name (assembly_name d) (class_name d)
                         (function_name d) (fst (fst r)))] /\
   rc = fst (fst r) /\
   s' = mk_state (set_slot m (set_function (snd (fst r)) d) (inst s)) (snd r)).
Proof.
  intros R. destruct (configured (inst s) m) eqn:Hc.
  - right. destruct (Z.eq_dec (coreclr_create_delegate (inst s)) NULL) as [Hp|Hp].
    + rewrite (bind_one_method_null _ w m name s Hc Hp) in R. discriminate.
    + pose proof (bind_one_method_set _ w m name s Hc Hp) as E.
      cbv zeta in E. rewrite E in R. injection R as <- <- <-.
      cbv zeta. repeat split; assumption || reflexivity.
  - left. rewrite (bind_one_method_unset _ w m name s Hc) in R.
    injection R as <- <- <-. repeat split.
Qed.

(** What a returning [bind_one_method] leaves alone. *)
Lemma bind_one_method_frame
  (m : member) (name : string) (s s' : mstate W) (t : trace) (rc : Z) :
  bind_one_method w m name s = (t, Returns rc s') ->
  same_but_functions (inst s) (inst s') /\
  (forall m', m' <> m -> slot m' (inst s') = slot m' (inst s)) /\
  (binder_calls t <= 1)%nat.
Proof.
  intros R. destruct (bind_one_method_inv m name s s' t rc R)
    as [(_ & -> & _ & ->)|(_ & _ & H)].
  - split; [apply same_but_functions_refl|]. split; [reflexivity|].
    cbn. lia.
  - cbv zeta in H. destruct H as (-> & _ & ->). cbn [inst].
    split; [apply same_but_functions_set|]. split.
    + intros m' Hm. apply slot_set_slot_other. congruence.
    + destruct (fst (fst _) =? 0); cbn; lia.
Qed.

(** X3.  Whenever [bind_one_method] returns, it has made at most one call of
    the delegate creator and has changed at most the [function] pointer of
    its own section: every other section, the three configured names of its
    own section, the context, the entry points and [clr_library] are as
    before. *)
Theorem bind_one_method_changes_one_pointer
  (m : member) (name : string) (s s' : mstate W) (t : trace) (rc : Z) :
  bind_one_method w m name s = (t, Returns rc s') ->
  same_but_functions (inst s) (inst s') /\
  (forall m', m' <> m -> slot m' (inst s') = slot m' (inst s)) /\
  (binder_calls t <= 1)%nat.
Proof.
  intros R. destruct (bind_one_method_frame m name s s' t rc R) as (S & F & C).
  split; [exact S|]. split; [exact F|exact C].
Qed.

(** X4.  What [bind_one_method] returns agrees with what it logs: it returns
    a nonzero status exactly when it logs a binding failure for [name]; and
    when it returns 0 for a configured section it logs "Bound it!" with the
    very pointer the section then holds. *)
Theorem bind_one_method_logs_its_status
  (m : member) (name : string) (s s' : mstate W) (t : trace) (rc : Z) :
  bind_one_method w m name s = (t, Returns rc s') ->
  (rc <> 0 <-> failed t = [name]) /\
  (rc = 0 <-> failed t = []) /\
  filter is_bound t
  = (if configured (inst s) m && (rc =? 0)
     then [ev_DEBUG (msg_bound (function (slot m (inst s'))))]
     else []).
Proof.
  intros R. destruct (bind_one_method_inv m name s s' t rc R)
    as [(Hc & -> & -> & ->)|(Hc & _ & H)].
  - rewrite Hc. cbn. repeat split; intros; congruence.
  - cbv zeta in H. destruct H as (-> & -> & ->). rewrite Hc. cbn [inst andb].
    rewrite slot_set_slot_same. cbn [function set_function].
    destruct (fst (fst _) =? 0) eqn:E; cbn.
    + apply Z.eqb_eq in E. repeat split; intros; congruence.
    + apply Z.eqb_neq in E. repeat split; intros; congruence.
Qed.


(** The batch leaves the sections outside its list alone. *)
Lemma bind_methods_frame (l : list member) (s s' : mstate W) (t : trace) :
  bind_methods w l s = (t, Returns tt s') ->
  same_but_functions (inst s) (inst s') /\
  forall m, ~ In m l -> slot m (inst s') = slot m (inst s).
Proof.
  revert s t. induction l as [|m l IH]; intros s t R.
  - injection R as <- <-. split; [apply same_but_functions_refl|reflexivity].
  - cbn [Dotnet.bind_methods] in R. unfold bind in R.
    destruct (bind_one_method w m (member_name m) s) as [t1 [rc s1|]] eqn:R1;
      [|discriminate].
    destruct (bind_methods w l s1) as [t2 [[] s2|]] eqn:R2; [|discriminate].
    injection R as <- <-.
    destruct (bind_one_method_frame m _ s s1 t1 rc R1) as (S1 & F1 & _).
    destruct (IH s1 t2 R2) as (S2 & F2).
    split; [eapply same_but_functions_trans; eassumption|].
    intros m' Hm. rewrite F2 by (intros H; apply Hm; now right).
    apply F1. intros ->. apply Hm. now left.
Qed.

(** However the batch ends, it logs binding attempts for configured sections
    of its list only. *)
Lemma bind_methods_attempted (l : list member) (s : mstate W) (name : string) :
  In name (attempted (fst (bind_methods w l s))) ->
  exists m, In m l /\ name = member_name m /\ configured (inst s) m = true.
Proof.
  revert s. induction l as [|m l IH]; intros s He; [destruct He|].
  cbn [Dotnet.bind_methods] in He.
  destruct (configured (inst s) m) eqn:Hm.
  - destruct (Z.eq_dec (coreclr_create_delegate (inst s)) NULL) as [Hp|Hp].
    + rewrite (bind_nullcall _ _ _ _ _ (bind_one_method_null _ w m _ s Hm Hp)) in He.
      cbn in He. destruct He as [<-|[]]. exists m. repeat split; auto. now left.
    + pose proof (bind_one_method_set _ w m (member_name m) s Hm Hp) as R.
      cbv zeta in R. rewrite (bind_returns _ _ _ _ _ _ _ R) in He.
      cbn [fst] in He. rewrite attempted_app in He.
      apply in_app_or in He as [He|He].
      * exists m. split; [now left|]. split; [|exact Hm].
        destruct (fst (fst _) =? 0); cbn in He; destruct He as [<-|[]];
          reflexivity.
      * destruct (IH _ He) as (m' & Hin & -> & Hc'). cbn [inst] in Hc'.
        exists m'. split; [now right|]. split; [reflexivity|].
        now rewrite (same_but_functions_configured _ _ m'
                       (same_but_functions_set m _ (inst s))) in Hc'.
  - rewrite (bind_returns _ _ _ _ _ _ _ (bind_one_method_unset _ w m _ s Hm)) in He.
    cbn [fst app] in He. destruct (IH _ He) as (m' & Hin & -> & Hc').
    exists m'. split; [now right|]. now split.
Qed.

(** With the delegate creator unresolved, the batch returns exactly when no
    section of its list is configured; either way the creator is not
    called. *)
Lemma bind_methods_unresolved (l : list member) (s : mstate W) :
  coreclr_create_delegate (inst s) = NULL ->
  return_code (bind_methods w l s)
  = (if existsb (configured (inst s)) l then None else Some tt) /\
  binder_calls (fst (bind_methods w l s)) = 0%nat /\
  (existsb (configured (inst s)) l = false -> bind_methods w l s = ([], Returns tt s)).
Proof.
  intros Hp. induction l as [|m l IH]; [repeat split|].
  cbn [Dotnet.bind_methods existsb].
  destruct (configured (inst s) m) eqn:Hm; cbn [orb].
  - rewrite (bind_nullcall _ _ _ _ _ (bind_one_method_null _ w m _ s Hm Hp)).
    repeat split. discriminate.
  - rewrite (bind_returns _ _ _ _ _ _ _ (bind_one_method_unset _ w m _ s Hm)).
    cbn [fst snd app]. destruct IH as (I1 & I2 & I3).
    split; [|split].
    + unfold return_code in *. cbn [snd]. exact I1.
    + exact I2.
    + intros H. rewrite (I3 H). reflexivity.
Qed.

(** *** Instantiation in detail *)

(** The loader always returns, with 0 or 1; it logs no binding, calls neither
    the delegate creator nor the shutdown entry point, and changes at most
    [dylib] and the three entry points. *)
Lemma bind_dotnet_quiet (s : mstate W) :
  exists t rc s',
    bind_dotnet s = (t, Returns rc s') /\
    (rc = 0 \/ rc = 1) /\
    attempted t = [] /\
    filter is_create_delegate t = [] /\
    filter is_shutdown t = [] /\
    hostHandle (inst s') = hostHandle (inst s) /\
    domainId (inst s') = domainId (inst s) /\
    clr_library (inst s') = clr_library (inst s) /\
    forall m, slot m (inst s') = slot m (inst s).
Proof.
  assert (Q : forall symbol set (s1 : mstate W),
    exists t s2,
      resolve w symbol set s1 = (t, Returns tt s2) /\
      attempted t = [] /\ filter is_create_delegate t = [] /\
      filter is_shutdown t = [] /\
      inst s2 = set (fst (dlsym w (dylib (inst s1)) symbol (env s1))) (inst s1)).
  { intros symbol set s1.
    unfold resolve, bind, load, store, extern, ERROR, emit, ret; simpl.
    destruct (dlsym w (dylib (inst s1)) symbol (env s1)) as [p v1]; simpl.
    destruct (p =? NULL); simpl.
    - destruct (dlerror w v1) as [e v2]; simpl. eauto 10.
    - eauto 10. }
  unfold Dotnet.bind_dotnet.
  unfold bind at 1, load at 1. cbv beta iota.
  unfold bind at 1, extern at 1. cbv beta iota.
  destruct (dlopen w (clr_library (inst s)) (Z.lor RTLD_NOW RTLD_GLOBAL) (env s))
    as [h v1].
  unfold bind at 1, store at 1. cbv beta iota. cbn [inst env].
  destruct (h =? NULL).
  - unfold bind, extern, ERROR, emit, ret. cbn [inst env].
    destruct (dlerror w v1) as [e v2]. cbn. eauto 15.
  - set (s1 := mk_state (set_dylib h (inst s)) v1).
    destruct (Q "coreclr_initialize" set_coreclr_initialize s1)
      as (t1 & s2 & R1 & A1 & C1 & D1 & I1).
    rewrite (bind_returns _ _ _ _ _ _ _ R1). cbv beta.
    destruct (Q "coreclr_create_delegate" set_coreclr_create_delegate s2)
      as (t2 & s3 & R2 & A2 & C2 & D2 & I2).
    rewrite (bind_returns _ _ _ _ _ _ _ R2). cbv beta.
    destruct (Q "coreclr_shutdown_2" set_coreclr_shutdown_2 s3)
      as (t3 & s4 & R3 & A3 & C3 & D3 & I3).
    rewrite (bind_returns _ _ _ _ _ _ _ R3). cbv beta.
    unfold ret. cbn [fst snd].
    do 3 eexists. split; [reflexivity|]. split; [now left|].
    cbn [attempted filter is_create_delegate is_shutdown].
    rewrite !attempted_app, !filter_app, A1, A2, A3, C1, C2, C3, D1, D2, D3.
    rewrite I3, I2, I1. subst s1. cbn. repeat split.
Qed.


(** X6.  Once the three entry points are resolved, [mod_instantiate] returns
    with the host handle and the domain id the initializer wrote, whether its
    status was 0 or not, and [mod_detach] on that instance makes one shutdown
    call, at the resolved entry point and for exactly that handle and id. *)
Theorem detach_shuts_down_what_initialize_returned
  (conf : CONF_SECTION) (s s0 : mstate W) (t0 : trace) :
  bind_dotnet s = (t0, Returns 0 s0) ->
  coreclr_initialize (inst s0) <> NULL ->
  coreclr_create_delegate (inst s0) <> NULL ->
  coreclr_shutdown_2 (inst s0) <> NULL ->
  let r := initialize_result s0 in
  exists t s' t2 s2,
    mod_instantiate conf s = (t, Returns 0 s') /\
    hostHandle (inst s') = snd (fst (fst r)) /\
    domainId (inst s') = snd (fst r) /\
    mod_detach w s' = (t2, Returns 0 s2) /\
    filter is_shutdown t2
    = [ev_coreclr_shutdown_2 (coreclr_shutdown_2 (inst s0))
         (snd (fst (fst r))) (snd (fst r))] /\
    inst s2 = inst s'.
Proof.
  intros R Hi Hc Hs r.
  assert (Fin : forall t s',
    mod_instantiate conf s = (t, Returns 0 s') ->
    same_but_functions
      (set_context (snd (fst (fst r))) (snd (fst r)) (inst s0)) (inst s') ->
    exists t s' t2 s2,
      mod_instantiate conf s = (t, Returns 0 s') /\
      hostHandle (inst s') = snd (fst (fst r)) /\
      domainId (inst s') = snd (fst r) /\
      mod_detach w s' = (t2, Returns 0 s2) /\
      filter is_shutdown t2
      = [ev_coreclr_shutdown_2 (coreclr_shutdown_2 (inst s0))
           (snd (fst (fst r))) (snd (fst r))] /\
      inst s2 = inst s').
  { intros t s' Rt (_ & Sh & Sd & _ & _ & Ss & _). cbn in Sh, Sd, Ss.
    assert (Hs' : coreclr_shutdown_2 (inst s') <> NULL) by now rewrite Ss.
    pose proof (mod_detach_resolved _ w s' Hs') as D. cbv zeta in D.
    do 4 eexists. split; [exact Rt|]. split; [exact Sh|]. split; [exact Sd|].
    split; [exact D|]. cbn. now rewrite Ss, Sh, Sd. }
  pose proof (mod_instantiate_loaded _ RTLD_NOW RTLD_GLOBAL CLR_PATH
                RLM_MODULE_FAIL WITH_COA _ w conf s t0 s0 R Hi) as E.
  cbv zeta in E. fold r in E.
  destruct (fst (fst (fst r)) =? 0).
  - match type of E with context [bind_methods w bound_members ?x] =>
      destruct (bind_methods_returns _ w bound_members x Hc)
        as (t1 & s2 & R2 & S2 & _)
    end.
    rewrite R2 in E. cbn [fst snd] in E. eapply Fin; [exact E|exact S2].
  - eapply Fin; [exact E|apply same_but_functions_refl].
Qed.

(** X7.  With the library loaded, the initializer resolved and successful,
    but the delegate creator unresolved: [mod_instantiate] returns 0 when no
    section of the list has a function identifier, and otherwise does not
    return; the delegate creator is not called either way. *)
Theorem unresolved_creator_stops_at_first_binding
  (conf : CONF_SECTION) (s s0 : mstate W) (t0 : trace) :
  bind_dotnet s = (t0, Returns 0 s0) ->
  coreclr_initialize (inst s0) <> NULL ->
  fst (fst (fst (initialize_result s0))) = 0 ->
  coreclr_create_delegate (inst s0) = NULL ->
  return_code (mod_instantiate conf s)
  = (if existsb (configured (inst s)) bound_members then None else Some 0) /\
  binder_calls (fst (mod_instantiate conf s)) = 0%nat.
Proof.
  intros R Hi Hhr Hc.
  destruct (bind_dotnet_quiet s) as (t & rc & s' & R' & _ & _ & C0 & _ & _ & _ & _ & Sl).
  rewrite R in R'. injection R' as <- <- <-.
  pose proof (mod_instantiate_loaded _ RTLD_NOW RTLD_GLOBAL CLR_PATH
                RLM_MODULE_FAIL WITH_COA _ w conf s t0 s0 R Hi) as E.
  cbv zeta in E. rewrite Hhr in E. cbn [Z.eqb] in E. rewrite E.
  match goal with |- context [bind_methods w bound_members ?x] =>
    destruct (bind_methods_unresolved bound_members x Hc) as (U1 & U2 & _);
    set (s1 := x) in *
  end.
  assert (Hex : existsb (configured (inst s1)) bound_members
                = existsb (configured (inst s)) bound_members).
  { apply existsb_ext_all. intros m. unfold configured. cbn [inst s1].
    rewrite <- Sl. destruct m; reflexivity. }
  rewrite Hex in U1. split.
  - unfold return_code in *. cbn [snd].
    destruct (snd (bind_methods w bound_members s1)) as [[] s2|];
      destruct (existsb (configured (inst s)) bound_members);
      congruence.
  - cbn [fst]. unfold binder_calls in *. cbn [filter is_create_delegate].
    rewrite filter_app, C0. cbn [filter is_create_delegate app].
    exact U2.
Qed.

(** A section without a function identifier comes out of the batch as it
    went in. *)
Lemma bind_methods_keeps_unconfigured
  (l : list member) (s s' : mstate W) (t : trace) (m : member) :
  bind_methods w l s = (t, Returns tt s') ->
  configured (inst s) m = false ->
  slot m (inst s') = slot m (inst s).
Proof.
  revert s t. induction l as [|m0 l IH]; intros s t R Hm.
  - now injection R as <- <-.
  - cbn [Dotnet.bind_methods] in R. unfold bind in R.
    destruct (bind_one_method w m0 (member_name m0) s) as [t1 [rc s1|]] eqn:R1;
      [|discriminate].
    destruct (bind_methods w l s1) as [t2 [[] s2|]] eqn:R2; [|discriminate].
    injection R as <- <-.
    destruct (bind_one_method_frame m0 _ s s1 t1 rc R1) as (S1 & F1 & _).
    assert (Hm1 : configured (inst s1) m = false)
      by now rewrite (same_but_functions_configured _ _ m S1).
    rewrite (IH s1 t2 R2 Hm1).
    destruct (bind_one_method_inv m0 _ s s1 t1 rc R1)
      as [(_ & _ & _ & ->)|(Hc0 & _)]; [reflexivity|].
    apply F1. intros ->. congruence.
Qed.

(** X8.  [mod_instantiate] never touches a section that has no function
    identifier: it logs no binding attempt under the section's name, and
    whenever it returns the section is exactly as it was, [function] pointer
    included. *)
Theorem instantiate_leaves_unconfigured_sections_alone
  (conf : CONF_SECTION) (s : mstate W) (m : member) :
  configured (inst s) m = false ->
  ~ In (member_name m) (attempted (fst (mod_instantiate conf s))) /\
  forall rc s',
    snd (mod_instantiate conf s) = Returns rc s' ->
    slot m (inst s') = slot m (inst s).
Proof.
  intros Hm.
  destruct (bind_dotnet_quiet s)
    as (t0 & rc0 & s0 & R & Hrc & A0 & _ & _ & _ & _ & _ & Sl).
  assert (Hc : forall (h : ptr) (d : Z) (v : W),
            configured (inst (mk_state (set_context h d (inst s0)) v)) m = false).
  { intros h d v. unfold configured in *. cbn [inst].
    replace (slot m (set_context h d (inst s0))) with (slot m (inst s0))
      by (destruct m; reflexivity).
    now rewrite Sl. }
  assert (Hb : forall (h : ptr) (d : Z) (v : W),
            ~ In (member_name m)
                (attempted (fst (bind_methods w bound_members
                                   (mk_state (set_context h d (inst s0)) v))))).
  { intros h d v H.
    destruct (bind_methods_attempted _ _ _ H) as (m' & _ & Hn & Hc').
    apply member_name_inj in Hn. subst m'. rewrite (Hc h d v) in Hc'.
    discriminate. }
  destruct Hrc as [->| ->].
  - destruct (Z.eq_dec (coreclr_initialize (inst s0)) NULL) as [Hi|Hi].
    + rewrite (mod_instantiate_unresolved _ RTLD_NOW RTLD_GLOBAL CLR_PATH
                 RLM_MODULE_FAIL WITH_COA _ w conf s t0 s0 R Hi).
      cbn [fst snd attempted]. rewrite A0. split; [intros []|discriminate].
    + pose proof (mod_instantiate_loaded _ RTLD_NOW RTLD_GLOBAL CLR_PATH
                    RLM_MODULE_FAIL WITH_COA _ w conf s t0 s0 R Hi) as E.
      cbv zeta in E. rewrite E.
      destruct (fst (fst (fst _)) =? 0); cbn [fst snd attempted].
      * rewrite attempted_app, A0. cbn [app attempted].
        split; [apply Hb|].
        intros rc s'.
        match goal with |- context [bind_methods w bound_members ?x] =>
          destruct (bind_methods w bound_members x) as [t1 [[] s2|]] eqn:R2
        end; [|discriminate].
        intros H. injection H as <- <-.
        rewrite (bind_methods_keeps_unconfigured _ _ _ _ m R2 (Hc _ _ _)).
        cbn [inst]. rewrite <- Sl. destruct m; reflexivity.
      * rewrite attempted_app, A0. cbn. split; [intros []|].
        intros rc s' H. injection H as <- <-. cbn [inst].
        rewrite <- Sl. destruct m; reflexivity.
  - rewrite (mod_instantiate_not_loaded _ RTLD_NOW RTLD_GLOBAL CLR_PATH
               RLM_MODULE_FAIL WITH_COA _ w conf s t0 1 s0 R) by discriminate.
    cbn [fst snd attempted]. rewrite attempted_app, A0. cbn.
    split; [intros []|]. intros rc s' H. injection H as <- <-. apply Sl.
Qed.

(** X9.  Whenever [mod_instantiate] returns, the configuration is as the
    server parsed it: [clr_library] and the assembly, class and function
    names of every section are unchanged. *)
Theorem instantiate_keeps_the_configuration
  (conf : CONF_SECTION) (s s' : mstate W) (t : trace) (rc : Z) :
  mod_instantiate conf s = (t, Returns rc s') ->
  clr_library (inst s') = clr_library (inst s) /\
  forall m,
    assembly_name (slot m (inst s')) = assembly_name (slot m (inst s)) /\
    class_name (slot m (inst s')) = class_name (slot m (inst s)) /\
    function_name (slot m (inst s')) = function_name (slot m (inst s)).
Proof.
  intros Rt.
  destruct (bind_dotnet_quiet s)
    as (t0 & rc0 & s0 & R & Hrc & _ & _ & _ & _ & _ & Cl & Sl).
  destruct Hrc as [->| ->].
  - destruct (Z.eq_dec (coreclr_initialize (inst s0)) NULL) as [Hi|Hi].
    + rewrite (mod_instantiate_unresolved _ RTLD_NOW RTLD_GLOBAL CLR_PATH
                 RLM_MODULE_FAIL WITH_COA _ w conf s t0 s0 R Hi) in Rt.
      discriminate.
    + pose proof (mod_instantiate_loaded _ RTLD_NOW RTLD_GLOBAL CLR_PATH
                    RLM_MODULE_FAIL WITH_COA _ w conf s t0 s0 R Hi) as E.
      cbv zeta in E. rewrite E in Rt.
      destruct (fst (fst (fst _)) =? 0).
      * match type of Rt with context [bind_methods w bound_members ?x] =>
          destruct (bind_methods w bound_members x) as [t1 [[] s2|]] eqn:R2
        end; [|discriminate].
        cbn [fst snd] in Rt. injection Rt as _ _ <-.
        destruct (bind_methods_frame _ _ _ _ R2)
          as ((_ & _ & _ & _ & _ & _ & C2 & N2) & _).
        cbn [inst] in C2, N2. rewrite C2. split; [exact Cl|].
        intros m. destruct (N2 m) as (-> & -> & ->).
        rewrite <- Sl. destruct m; repeat split.
      * injection Rt as _ _ <-. cbn [inst]. split; [exact Cl|].
        intros m. rewrite <- Sl. destruct m; repeat split.
  - rewrite (mod_instantiate_not_loaded _ RTLD_NOW RTLD_GLOBAL CLR_PATH
               RLM_MODULE_FAIL WITH_COA _ w conf s t0 1 s0 R) in Rt
      by discriminate.
    injection Rt as _ _ <-. split; [exact Cl|]. intros m. now rewrite Sl.
Qed.

(** Without a configured section the batch makes no call at all, resolved
    creator or not. *)
Lemma bind_methods_nothing_configured (l : list member) (s : mstate W) :
  existsb (configured (inst s)) l = false ->
  bind_methods w l s = ([], Returns tt s).
Proof.
  induction l as [|m l IH]; [reflexivity|].
  cbn [existsb Dotnet.bind_methods]. intros H.
  apply orb_false_iff in H as [Hm Hl].
  rewrite (bind_returns _ _ _ _ _ _ _ (bind_one_method_unset _ w m _ s Hm)).
  rewrite (IH Hl). reflexivity.
Qed.

(** C9.  Whenever [bind_dotnet] succeeds and the entry points that
    [mod_instantiate] goes on to call are resolved, [mod_instantiate]
    returns 0, whatever status the initializer and the delegate creator
    return.  The initializer is always called; the delegate creator is
    called only after an initializer status of 0 and only if a section of the
    bind list has a function identifier. *)
Theorem instantiate_returns_zero_when_its_calls_resolve
  (conf : CONF_SECTION) (s s0 : mstate W) (t0 : trace) :
  bind_dotnet s = (t0, Returns 0 s0) ->
  coreclr_initialize (inst s0) <> NULL ->
  (fst (fst (fst (initialize_result s0))) = 0 ->
   existsb (configured (inst s0)) bound_members = true ->
   coreclr_create_delegate (inst s0) <> NULL) ->
  exists t s', mod_instantiate conf s = (t, Returns 0 s').
Proof.
  intros R Hi Hc.
  pose proof (mod_instantiate_loaded _ RTLD_NOW RTLD_GLOBAL CLR_PATH
                RLM_MODULE_FAIL WITH_COA _ w conf s t0 s0 R Hi) as E.
  cbv zeta in E. rewrite E.
  destruct (fst (fst (fst (initialize_result s0))) =? 0) eqn:E0; [|eauto].
  apply Z.eqb_eq in E0.
  match goal with |- context [bind_methods w bound_members ?x] =>
    set (s1 := x) in *
  end.
  assert (Hex : existsb (configured (inst s1)) bound_members
                = existsb (configured (inst s0)) bound_members).
  { apply existsb_ext_all. intros m. unfold configured. cbn [inst s1].
    destruct m; reflexivity. }
  destruct (existsb (configured (inst s0)) bound_members) eqn:Hcfg.
  - destruct (bind_methods_returns _ w bound_members s1 (Hc E0 eq_refl))
      as (t1 & s2 & R2 & _).
    rewrite R2. cbn [fst snd]. eauto.
  - rewrite (bind_methods_nothing_configured bound_members s1 Hex).
    cbn [fst snd]. eauto.
Qed.

(** *** Shutdown in detail *)

(** X10.  [mod_detach] leaves the instance as it is, entry points and
    context included: with the shutdown entry point resolved, a second
    [mod_detach] shuts the same context down a second time. *)
Theorem detach_twice_shuts_down_twice (s : mstate W) :
  coreclr_shutdown_2 (inst s) <> NULL ->
  exists t s',
    bind (mod_detach w) (fun _ => mod_detach w) s = (t, Returns 0 s') /\
    inst s' = inst s /\
    filter is_shutdown t
    = [ev_coreclr_shutdown_2 (coreclr_shutdown_2 (inst s))
         (hostHandle (inst s)) (domainId (inst s));
       ev_coreclr_shutdown_2 (coreclr_shutdown_2 (inst s))
         (hostHandle (inst s)) (domainId (inst s))].
Proof.
  intros Hs. pose proof (mod_detach_resolved _ w s Hs) as D1. cbv zeta in D1.
  rewrite (bind_returns _ _ _ _ _ _ _ D1). cbv beta.
  match type of D1 with _ = (_, Returns _ ?x) => set (s1 := x) in * end.
  assert (Hs1 : coreclr_shutdown_2 (inst s1) <> NULL) by exact Hs.
  pose proof (mod_detach_resolved _ w s1 Hs1) as D2. cbv zeta in D2.
  rewrite D2. cbn [fst snd]. do 2 eexists. split; [reflexivity|].
  split; reflexivity.
Qed.

End Coverage.

(** *** The tables *)

(** X11.  The configuration table and the binder agree, with and without
    [WITH_COA]: the option names are pairwise distinct; the sections with a
    [func_<x>] option are exactly the sections [mod_instantiate] binds, in
    the same order; each of them has the three options [asm_<x>],
    [class_<x>] and [func_<x>], of which only [func_<x>] has no default; and
    a section outside the list has no option at all. *)
Theorem module_config_matches_the_binder (WITH_COA : bool) :
  NoDup (map conf_name (module_config WITH_COA)) /\
  func_options (module_config WITH_COA) = bound_members WITH_COA /\
  (forall x, In x (bound_members WITH_COA) ->
     map (fun o => (conf_name o, conf_dflt o))
       (options_of x (module_config WITH_COA))
     = [(("asm_" ++ member_name x)%string, Some "${.assembly}");
        (("class_" ++ member_name x)%string, Some "${.class}");
        (("func_" ++ member_name x)%string, None)]) /\
  (forall x, ~ In x (bound_members WITH_COA) ->
     options_of x (module_config WITH_COA) = []).
Proof.
  split; [|split; [|split]].
  - destruct WITH_COA; cbv [module_config A_config map app member_name
                             conf_name String.append];
      repeat constructor; cbv [In]; intuition discriminate.
  - destruct WITH_COA; reflexivity.
  - intros x Hx. destruct WITH_COA; destruct x; try reflexivity;
      exfalso; cbv [bound_members app In] in Hx; intuition discriminate.
  - intros x Hx. destruct WITH_COA; destruct x; try reflexivity;
      exfalso; apply Hx; cbv [bound_members app In]; intuition.
Qed.


(** *** The further properties at concrete inputs *)

Lemma bind_dotnet_load_failure_witness :
  fst (dlopen (double no_library) (clr_library (inst fresh)) (Z.lor 2 8)
         (env fresh)) = NULL /\
  exists t s',
    bind_dotnet nat 2 8 (double no_library) fresh = (t, Returns 1 s') /\
    filter is_dlsym t = [] /\
    List.length (filter is_error t) = 1%nat /\
    inst s' = set_dylib NULL sample_instance.
Proof.
  assert (H : fst (dlopen (double no_library) (clr_library (inst fresh))
                     (Z.lor 2 8) (env fresh)) = NULL) by reflexivity.
  split; [exact H|].
  destruct (bind_dotnet_load_failure nat 2 8 (double no_library) fresh H)
    as (t & s' & R & _ & S & E & I).
  exists t, s'. repeat split; assumption.
Defined.

Lemma bind_dotnet_loaded_witness :
  fst (dlopen (double initialize_missing) (clr_library (inst fresh))
         (Z.lor 2 8) (env fresh)) <> NULL /\
  exists t s',
    bind_dotnet nat 2 8 (double initialize_missing) fresh = (t, Returns 0 s') /\
    filter is_dlsym t
    = [ev_dlsym 1024 "coreclr_initialize";
       ev_dlsym 1024 "coreclr_create_delegate";
       ev_dlsym 1024 "coreclr_shutdown_2"] /\
    dylib (inst s') = 1024 /\
    List.length (filter is_error t) = unresolved (inst s').
Proof.
  assert (H : fst (dlopen (double initialize_missing) (clr_library (inst fresh))
                     (Z.lor 2 8) (env fresh)) <> NULL) by discriminate.
  split; [exact H|].
  destruct (bind_dotnet_loaded nat 2 8 (double initialize_missing) fresh H)
    as (t & s' & R & _ & S & D & E & _).
  exists t, s'. repeat split; assumption.
Defined.

Lemma bind_one_method_changes_one_pointer_witness :
  let s := mk_state ready_instance O in
  let s' := mk_state
              (set_slot m_accounting (set_function NULL (func "Accounting"))
                 ready_instance) 1%nat in
  snd (bind_one_method (double one_bind_fails) m_accounting "accounting" s)
  = Returns 0x80131513 s' /\
  same_but_functions (inst s) (inst s') /\
  (forall m', m' <> m_accounting -> slot m' (inst s') = slot m' (inst s)) /\
  (binder_calls
     (fst (bind_one_method (double one_bind_fails) m_accounting "accounting" s))
   <= 1)%nat.
Proof.
  intros s s'. split; [reflexivity|].
  exact (bind_one_method_changes_one_pointer nat (double one_bind_fails)
           m_accounting "accounting" s s' _ _ eq_refl).
Defined.

Lemma bind_one_method_logs_its_status_witness :
  let s := mk_state ready_instance O in
  let s' := mk_state
              (set_slot m_authorize
                 (set_function (delegate_address (Some "Authorize"))
                    (func "Authorize"))
                 ready_instance) 1%nat in
  let t := fst (bind_one_method (double one_bind_fails) m_authorize
                  "authorize" s) in
  snd (bind_one_method (double one_bind_fails) m_authorize "authorize" s)
  = Returns 0 s' /\
  failed t = [] /\
  filter is_bound t = [ev_DEBUG (msg_bound (delegate_address (Some "Authorize")))].
Proof.
  intros s s' t. split; [reflexivity|].
  destruct (bind_one_method_logs_its_status nat (double one_bind_fails)
              m_authorize "authorize" s s' t 0 eq_refl) as (_ & Z0 & B).
  split; [now apply Z0|exact B].
Defined.


Lemma detach_shuts_down_what_initialize_returned_witness :
  bind_dotnet nat 2 8 (double initialize_fails) fresh
  = (fst (bind_dotnet nat 2 8 (double initialize_fails) fresh),
     Returns 0 (mk_state loaded_instance 4%nat)) /\
  coreclr_initialize loaded_instance <> NULL /\
  coreclr_create_delegate loaded_instance <> NULL /\
  coreclr_shutdown_2 loaded_instance <> NULL /\
  exists t s' t2 s2,
    run_instantiate initialize_fails fresh = (t, Returns 0 s') /\
    hostHandle (inst s') = NULL /\
    domainId (inst s') = 0 /\
    run_detach initialize_fails s' = (t2, Returns 0 s2) /\
    filter is_shutdown t2 = [ev_coreclr_shutdown_2 4128 NULL 0] /\
    inst s2 = inst s'.
Proof.
  assert (H1 : bind_dotnet nat 2 8 (double initialize_fails) fresh
               = (fst (bind_dotnet nat 2 8 (double initialize_fails) fresh),
                  Returns 0 (mk_state loaded_instance 4%nat))) by reflexivity.
  assert (H2 : coreclr_initialize (inst (mk_state loaded_instance 4%nat)) <> NULL)
    by discriminate.
  assert (H3 : coreclr_create_delegate (inst (mk_state loaded_instance 4%nat))
               <> NULL) by discriminate.
  assert (H4 : coreclr_shutdown_2 (inst (mk_state loaded_instance 4%nat)) <> NULL)
    by discriminate.
  split; [exact H1|]. split; [exact H2|]. split; [exact H3|]. split; [exact H4|].
  exact (detach_shuts_down_what_initialize_returned nat 2 8 sample_CLR_PATH 1
           false unit (double initialize_fails) tt fresh _ _ H1 H2 H3 H4).
Defined.

Lemma unresolved_creator_stops_at_first_binding_witness :
  bind_dotnet nat 2 8 (double creator_missing) fresh
  = (fst (bind_dotnet nat 2 8 (double creator_missing) fresh),
     Returns 0 (mk_state (set_coreclr_create_delegate NULL loaded_instance)
                  5%nat)) /\
  return_code (run_instantiate creator_missing fresh) = None /\
  return_code (run_instantiate creator_missing (mk_state zero_instance O))
  = Some 0 /\
  binder_calls (fst (run_instantiate creator_missing fresh)) = 0%nat.
Proof.
  assert (H1 : bind_dotnet nat 2 8 (double creator_missing) fresh
               = (fst (bind_dotnet nat 2 8 (double creator_missing) fresh),
                  Returns 0 (mk_state
                               (set_coreclr_create_delegate NULL loaded_instance)
                               5%nat))) by reflexivity.
  split; [exact H1|].
  destruct (unresolved_creator_stops_at_first_binding nat 2 8 sample_CLR_PATH 1
              false unit (double creator_missing) tt fresh _ _ H1)
    as (A & B); try reflexivity; try discriminate.
  destruct (unresolved_creator_stops_at_first_binding nat 2 8 sample_CLR_PATH 1
              false unit (double creator_missing) tt (mk_state zero_instance O)
              (mk_state (set_coreclr_shutdown_2 4128
                           (set_coreclr_create_delegate NULL
                              (set_coreclr_initialize 4096
                                 (set_dylib 1024 zero_instance)))) 5%nat)
              _ eq_refl)
    as (A' & _); try reflexivity; try discriminate.
  split; [exact A|]. split; [exact A'|exact B].
Defined.

Lemma instantiate_leaves_unconfigured_sections_alone_witness :
  let r := mod_instantiate nat 2 8 sample_CLR_PATH 1 false unit (double healthy)
             tt fresh in
  configured (inst fresh) m_preacct = false /\
  ~ In "preacct" (attempted (fst r)) /\
  snd r = Returns 0 (final_state r) /\
  preacct (inst (final_state r)) = unset.
Proof.
  intros r.
  assert (H : configured (inst fresh) m_preacct = false) by reflexivity.
  assert (E : snd r = Returns 0 (final_state r)) by (vm_compute; reflexivity).
  destruct (instantiate_leaves_unconfigured_sections_alone nat 2 8
              sample_CLR_PATH 1 false unit (double healthy) tt fresh
              m_preacct H) as (A & F).
  split; [exact H|]. split; [exact A|]. split; [exact E|].
  exact (F 0 (final_state r) E).
Defined.

Lemma instantiate_keeps_the_configuration_witness :
  let r := mod_instantiate nat 2 8 sample_CLR_PATH 1 false unit
             (double one_bind_fails) tt fresh in
  r = (fst r, Returns 0 (final_state r)) /\
  clr_library (inst (final_state r)) = Some DEFAULT_CLR_LIBRARY /\
  function_name (accounting (inst (final_state r))) = Some "Accounting".
Proof.
  intros r.
  assert (H : r = (fst r, Returns 0 (final_state r)))
    by (vm_compute; reflexivity).
  destruct (instantiate_keeps_the_configuration nat 2 8 sample_CLR_PATH 1 false
              unit (double one_bind_fails) tt fresh (final_state r) (fst r) 0 H)
    as (C & N).
  split; [exact H|]. split; [exact C|].
  exact (proj2 (proj2 (N m_accounting))).
Defined.

Lemma detach_twice_shuts_down_twice_witness :
  coreclr_shutdown_2 ready_instance <> NULL /\
  exists t s',
    bind (mod_detach (double shutdown_fails))
      (fun _ => mod_detach (double shutdown_fails)) (mk_state ready_instance O)
    = (t, Returns 0 s') /\
    inst s' = ready_instance /\
    filter is_shutdown t
    = [ev_coreclr_shutdown_2 4128 2048 1; ev_coreclr_shutdown_2 4128 2048 1].
Proof.
  assert (H : coreclr_shutdown_2 (inst (mk_state ready_instance O)) <> NULL)
    by discriminate.
  split; [exact H|].
  exact (detach_twice_shuts_down_twice nat (double shutdown_fails)
           (mk_state ready_instance O) H).
Defined.

(** *** The claims the unchecked entry points break *)

(** C7.  Against a library that lacks [coreclr_shutdown_2]: [mod_instantiate]
    returns 0 with all configured sections bound and the shutdown entry
    point NULL, and the [mod_detach] that follows makes no shutdown call and
    returns nothing: it calls through the NULL pointer. *)
Theorem detach_after_instantiate_calls_null :
  let r := mod_instantiate nat 2 8 sample_CLR_PATH 1 false unit
             (double shutdown_missing) tt fresh in
  snd r = Returns 0 (final_state r) /\
  failed (fst r) = [] /\
  coreclr_shutdown_2 (inst (final_state r)) = NULL /\
  mod_detach (double shutdown_missing) (final_state r) = ([], NullCall) /\
  filter is_shutdown
    (fst (mod_detach (double shutdown_missing) (final_state r))) = [].
Proof.
  intros r.
  assert (H : coreclr_shutdown_2 (inst (final_state r)) = NULL)
    by (vm_compute; reflexivity).
  split; [vm_compute; reflexivity|]. split; [vm_compute; reflexivity|].
  split; [exact H|].
  rewrite (mod_detach_unresolved nat (double shutdown_missing) (final_state r) H).
  split; reflexivity.
Qed.

(** A successful [bind_dotnet] alone does not make [mod_instantiate] return
    0: against a library that lacks [coreclr_create_delegate], [bind_dotnet]
    returns 0 and [mod_instantiate] returns nothing (the counterexample to
    C9 without its hypotheses on the entry points). *)
Lemma instantiate_after_load_need_not_return :
  return_code (bind_dotnet nat 2 8 (double creator_missing) fresh) = Some 0 /\
  return_code (mod_instantiate nat 2 8 sample_CLR_PATH 1 false unit
                 (double creator_missing) tt fresh) <> Some 0.
Proof.
  split; [vm_compute; reflexivity|].
  assert (E : return_code (mod_instantiate nat 2 8 sample_CLR_PATH 1 false unit
                             (double creator_missing) tt fresh) = None)
    by (vm_compute; reflexivity).
  rewrite E. discriminate.
Qed.

Lemma instantiate_returns_zero_when_its_calls_resolve_witness :
  let w := double initialize_fails_creator_missing in
  let s0 := mk_state (set_coreclr_create_delegate NULL loaded_instance) 5%nat in
  let t0 := fst (bind_dotnet nat 2 8 w fresh) in
  let w' := double one_bind_fails in
  let s0' := mk_state loaded_instance 4%nat in
  let t0' := fst (bind_dotnet nat 2 8 w' fresh) in
  (bind_dotnet nat 2 8 w fresh = (t0, Returns 0 s0) /\
   coreclr_initialize (inst s0) <> NULL /\
   coreclr_create_delegate (inst s0) = NULL /\
   fst (fst (fst (do_coreclr_initialize w (coreclr_initialize (inst s0)) exePath
                    "FreeRadius" 1 ["TRUSTED_PLATFORM_ASSEMBLIES"]
                    [sample_CLR_PATH] (hostHandle (inst s0))
                    (domainId (inst s0)) (env s0)))) = E_FAIL /\
   exists t s',
     mod_instantiate nat 2 8 sample_CLR_PATH 1 false unit w tt fresh
     = (t, Returns 0 s')) /\
  (bind_dotnet nat 2 8 w' fresh = (t0', Returns 0 s0') /\
   coreclr_initialize (inst s0') <> NULL /\
   coreclr_create_delegate (inst s0') <> NULL /\
   exists t s',
     mod_instantiate nat 2 8 sample_CLR_PATH 1 false unit w' tt fresh
     = (t, Returns 0 s')).
Proof.
  intros w s0 t0 w' s0' t0'. split.
  - assert (H1 : bind_dotnet nat 2 8 w fresh = (t0, Returns 0 s0))
      by reflexivity.
    assert (H2 : coreclr_initialize (inst s0) <> NULL) by discriminate.
    split; [exact H1|]. split; [exact H2|]. split; [reflexivity|].
    split; [reflexivity|].
    apply (instantiate_returns_zero_when_its_calls_resolve nat 2 8
             sample_CLR_PATH 1 false unit w tt fresh s0 t0 H1 H2).
    intros H. discriminate H.
  - assert (H1 : bind_dotnet nat 2 8 w' fresh = (t0', Returns 0 s0'))
      by reflexivity.
    assert (H2 : coreclr_initialize (inst s0') <> NULL) by discriminate.
    assert (H3 : coreclr_create_delegate (inst s0') <> NULL) by discriminate.
    split; [exact H1|]. split; [exact H2|]. split; [exact H3|].
    apply (instantiate_returns_zero_when_its_calls_resolve nat 2 8
             sample_CLR_PATH 1 false unit w' tt fresh s0' t0' H1 H2).
    intros _ _. exact H3.
Defined.
